(** * lab3 machine: DataPath, ControlUnit and Timer of [machine/cpu.py]

    A shallow embedding of the cycle-level simulator.  Python objects are
    mutated in place and an exception leaves the mutations made so far
    visible to the caller, so every method is a function from the object
    state to an [outcome] that carries the final state in both the
    returning and the raising case. *)

From Stdlib Require Import ZArith List String Bool Lia.
From stdpp Require Import base decidable list.
Import ListNotations.

Local Open Scope Z_scope.

(** ** Python values and exceptions *)

(** The values that reach the registers: integers of arbitrary size, and
    [None], which a [match] statement without a matching [case] returns. *)
Inductive pyval : Type :=
  | PInt (i : Z)
  | PNone.

Inductive exn : Type :=
  | ZeroDivisionError
  | IndexError
  | TypeError.

#[global] Instance pyval_eq_dec : EqDecision pyval.
Proof. solve_decision. Defined.

#[global] Instance exn_eq_dec : EqDecision exn.
Proof. solve_decision. Defined.

(** [a + b], [a - b], [a * b] *)
Definition py_arith (f : Z -> Z -> Z) (a b : pyval) : exn + pyval :=
  match a, b with
  | PInt x, PInt y => inr (PInt (f x y))
  | _, _ => inl TypeError
  end.

(** [a // b] and [a % b]: floor division, remainder with the divisor's sign *)
Definition py_divlike (f : Z -> Z -> Z) (a b : pyval) : exn + pyval :=
  match a, b with
  | PInt x, PInt y => if y =? 0 then inl ZeroDivisionError else inr (PInt (f x y))
  | _, _ => inl TypeError
  end.

Definition py_add := py_arith Z.add.
Definition py_sub := py_arith Z.sub.
Definition py_mul := py_arith Z.mul.
Definition py_floordiv := py_divlike Z.div.
Definition py_mod := py_divlike Z.modulo.

(** [a << k] for a literal [k >= 0] *)
Definition py_lshift (a : pyval) (k : Z) : exn + pyval :=
  match a with
  | PInt x => inr (PInt (Z.shiftl x k))
  | PNone => inl TypeError
  end.

(** [a == b] never raises *)
Definition py_eq (a b : pyval) : bool :=
  match a, b with
  | PInt x, PInt y => x =? y
  | PNone, PNone => true
  | _, _ => false
  end.

(** [a < b] *)
Definition py_lt (a b : pyval) : exn + bool :=
  match a, b with
  | PInt x, PInt y => inr (x <? y)
  | _, _ => inl TypeError
  end.

(** List subscripts: a negative index counts from the end, anything outside
    [-len, len) is an [IndexError]. *)
Definition py_norm_index (len : nat) (i : Z) : option nat :=
  let i' := if i <? 0 then i + Z.of_nat len else i in
  if (i' <? 0) || (Z.of_nat len <=? i') then None else Some (Z.to_nat i').

(** [l[i]] *)
Definition py_getitem {A : Type} (l : list A) (i : pyval) : exn + A :=
  match i with
  | PNone => inl TypeError
  | PInt i =>
      match py_norm_index (length l) i with
      | Some k => match l !! k with Some x => inr x | None => inl IndexError end
      | None => inl IndexError
      end
  end.

(** [l[i] = v] *)
Definition py_setitem {A : Type} (l : list A) (i : pyval) (v : A) : exn + list A :=
  match i with
  | PNone => inl TypeError
  | PInt i =>
      match py_norm_index (length l) i with
      | Some k => inr (<[k := v]> l)
      | None => inl IndexError
      end
  end.

(** ** Methods as state transformers that may raise *)

Inductive outcome (S A : Type) : Type :=
  | Returned (a : A) (s : S)
  | Raised (e : exn) (s : S).

Arguments Returned {S A} a s.
Arguments Raised {S A} e s.

Definition M (S A : Type) : Type := S -> outcome S A.

Definition ret {S A} (a : A) : M S A := fun s => Returned a s.

Definition bind {S A B} (c : M S A) (k : A -> M S B) : M S B :=
  fun s => match c s with
           | Returned a s' => k a s'
           | Raised e s' => Raised e s'
           end.

Definition raise {S A} (e : exn) : M S A := fun s => Raised e s.

Definition gets {S A} (f : S -> A) : M S A := fun s => Returned (f s) s.

Definition modify {S} (f : S -> S) : M S unit := fun s => Returned tt (f s).

(** Evaluate an expression that may raise. *)
Definition eval {S A} (r : exn + A) : M S A :=
  match r with
  | inr a => ret a
  | inl e => raise e
  end.

(** Run a method of a sub-object held in a field of the enclosing object. *)
Definition zoom {S T A} (get : S -> T) (set : T -> S -> S) (c : M T A) : M S A :=
  fun s => match c (get s) with
           | Returned a t => Returned a (set t s)
           | Raised e t => Raised e (set t s)
           end.

Definition state_of {S A} (o : outcome S A) : S :=
  match o with
  | Returned _ s => s
  | Raised _ s => s
  end.

Declare Scope py_scope.
Delimit Scope py_scope with py.
Notation "'let!' x ':=' c 'in' k" := (bind c (fun x => k))
  (at level 10, x name, c at level 100, k at level 200) : py_scope.
Notation "'do!' c 'in' k" := (bind c (fun _ => k))
  (at level 10, c at level 100, k at level 200) : py_scope.
Local Open Scope py_scope.

(** ** Enumerations *)

(** Modelled from the spec: [machine/isa.py] is not part of the sources; the
    members are the opcodes [cpu.py] names. *)
Inductive Opcode : Type :=
  | ADD | SUB | MUL | DIV | REM | INC | DEC | CMP | MOVH
  | LOAD | STORE
  | JMP | JGE | JE | JNE
  | CALL | RET | IRET | FUNC | ISR
  | EI | DI | VECTOR | TIMER
  | PUSH | POP
  | IN | OUT | SIGN
  | HALT.

(** Modelled from the spec: [machine/machine_signals.py] is not part of the
    sources; a bus selector names the accumulator, the buffer register, the
    stack pointer or the memory-output latch. *)
Inductive Operands : Type :=
  | ACC | BUF | STACK | MEM.

(** Modelled from the spec: [machine/machine_signals.py] is not part of the
    sources; the members are the signals [cpu.py] names. *)
Inductive Signal : Type :=
  | DIRECT_ACC_LOAD | DIRECT_ADDRESS_LOAD
  | READ | WRITE
  | BUF_LATCH | STACK_LATCH
  | NEXT_IP | JMP_ARG | DATA_IP.

#[global] Instance Opcode_eq_dec : EqDecision Opcode.
Proof. solve_decision. Defined.

#[global] Instance Operands_eq_dec : EqDecision Operands.
Proof. solve_decision. Defined.

#[global] Instance Signal_eq_dec : EqDecision Signal.
Proof. solve_decision. Defined.

Definition arithmetic_operations : list Opcode :=
  [ADD; SUB; MUL; DIV; REM; INC; DEC; CMP; MOVH].

(** The dictionary [{"z": ..., "n": ...}] *)
Record Flags : Type := mkFlags { flag_z : bool; flag_n : bool }.

Set Implicit Arguments.

Section Machine.

(** The ports object lives in [machine/ports.py], which is not part of the
    sources: its state is kept abstract, with the one method and the one
    attribute the control unit uses. *)
Variable Ports : Type.
Variable add_input : Z -> Ports -> Ports.
Variable output_buffer : Ports -> list string.

(** ** DataPath *)

Record DataPath : Type := mkDataPath {
  data_memory : list pyval;
  ports : Ports;
  acc : pyval;
  buf_reg : pyval;
  stack_pointer : pyval;
  address_reg : pyval;
  memory_out : pyval;
  flags : Flags;
  alu_out : pyval;
  in_interruption : bool
}.

Definition set_data_memory (m : list pyval) (dp : DataPath) : DataPath :=
  mkDataPath m (ports dp) (acc dp) (buf_reg dp) (stack_pointer dp)
    (address_reg dp) (memory_out dp) (flags dp) (alu_out dp) (in_interruption dp).

Definition set_ports (p : Ports) (dp : DataPath) : DataPath :=
  mkDataPath (data_memory dp) p (acc dp) (buf_reg dp) (stack_pointer dp)
    (address_reg dp) (memory_out dp) (flags dp) (alu_out dp) (in_interruption dp).

Definition set_acc (v : pyval) (dp : DataPath) : DataPath :=
  mkDataPath (data_memory dp) (ports dp) v (buf_reg dp) (stack_pointer dp)
    (address_reg dp) (memory_out dp) (flags dp) (alu_out dp) (in_interruption dp).

Definition set_buf_reg (v : pyval) (dp : DataPath) : DataPath :=
  mkDataPath (data_memory dp) (ports dp) (acc dp) v (stack_pointer dp)
    (address_reg dp) (memory_out dp) (flags dp) (alu_out dp) (in_interruption dp).


Definition set_address_reg (v : pyval) (dp : DataPath) : DataPath :=
  mkDataPath (data_memory dp) (ports dp) (acc dp) (buf_reg dp) (stack_pointer dp)
    v (memory_out dp) (flags dp) (alu_out dp) (in_interruption dp).

Definition set_memory_out (v : pyval) (dp : DataPath) : DataPath :=
  mkDataPath (data_memory dp) (ports dp) (acc dp) (buf_reg dp) (stack_pointer dp)
    (address_reg dp) v (flags dp) (alu_out dp) (in_interruption dp).

Definition set_flags (f : Flags) (dp : DataPath) : DataPath :=
  mkDataPath (data_memory dp) (ports dp) (acc dp) (buf_reg dp) (stack_pointer dp)
    (address_reg dp) (memory_out dp) f (alu_out dp) (in_interruption dp).

Definition set_alu_out (v : pyval) (dp : DataPath) : DataPath :=
  mkDataPath (data_memory dp) (ports dp) (acc dp) (buf_reg dp) (stack_pointer dp)
    (address_reg dp) (memory_out dp) (flags dp) v (in_interruption dp).

(** [DataPath.__init__] *)
Definition DataPath_init (memory_capacity : Z) (p : Ports) : DataPath :=
  {| data_memory := replicate (Z.to_nat memory_capacity) (PInt 0);
     ports := p;
     acc := PInt 0;
     buf_reg := PInt 0;
     stack_pointer := PInt 0;
     address_reg := PInt 0;
     memory_out := PInt 0;
     flags := mkFlags false false;
     alu_out := PInt 0;
     in_interruption := false |}.

Definition signal_latch_acc (sel : Signal) (load : pyval) : M DataPath unit :=
  if decide (sel = DIRECT_ACC_LOAD)
  then modify (set_acc load)
  else let! v := gets alu_out in modify (set_acc v).

Definition signal_latch_address (sel : Signal) (load : pyval) : M DataPath unit :=
  if decide (sel = DIRECT_ADDRESS_LOAD)
  then modify (set_address_reg load)
  else let! v := gets alu_out in modify (set_address_reg v).

Definition memory_manager (operation : Signal) : M DataPath unit :=
  if decide (operation = READ) then
    let! mem := gets data_memory in
    let! a := gets address_reg in
    let! v := eval (py_getitem mem a) in
    modify (set_memory_out v)
  else if decide (operation = WRITE) then
    let! v := gets alu_out in
    let! mem := gets data_memory in
    let! a := gets address_reg in
    let! mem' := eval (py_setitem mem a v) in
    modify (set_data_memory mem')
  else ret tt.


(** The parameter [value] defaults to 0 at the call sites that omit it.  An
    opcode outside the nine cases falls out of the [match] and the method
    returns [None]. *)
Definition execute_alu_operation (operation : Opcode) (value : pyval) : M DataPath pyval :=
  match operation with
  | ADD => let! a := gets alu_out in eval (py_add a value)
  | SUB => let! a := gets alu_out in eval (py_sub a value)
  | MUL => let! a := gets alu_out in eval (py_mul a value)
  | DIV => let! a := gets alu_out in eval (py_floordiv a value)
  | REM => let! a := gets alu_out in eval (py_mod a value)
  | INC => let! a := gets alu_out in eval (py_add a (PInt 1))
  | DEC => let! a := gets alu_out in eval (py_sub a (PInt 1))
  | CMP =>
      let! a := gets alu_out in
      let zf := py_eq a value in
      let! nf := eval (py_lt a value) in
      do! modify (set_flags (mkFlags zf nf)) in
      gets alu_out
  | MOVH => let! a := gets alu_out in eval (py_lshift a 24)
  | _ => ret PNone
  end.

Definition get_bus_value (bus : Operands) (dp : DataPath) : pyval :=
  match bus with
  | ACC => acc dp
  | BUF => buf_reg dp
  | STACK => stack_pointer dp
  | MEM => memory_out dp
  end.

(** Lines 77-79 of [alu_working]: latch the first operand into [alu_out] and,
    when the accumulator is among the operands, take the flag snapshot. *)
Definition alu_latch (valves : list Operands) : M DataPath unit :=
  let! b0 := eval (py_getitem valves (PInt 0)) in
  let! v := gets (get_bus_value b0) in
  do! modify (set_alu_out v) in
  if decide (ACC ∈ valves) then
    let! a := gets acc in
    let zf := py_eq a (PInt 0) in
    let! o := gets alu_out in
    let! nf := eval (py_lt o (PInt 0)) in
    modify (set_flags (mkFlags zf nf))
  else ret tt.

(** Lines 80-83 of [alu_working]: apply the operation. *)
Definition alu_apply (operation : Opcode) (valves : list Operands) : M DataPath unit :=
  if decide (operation ∈ [INC; DEC; MOVH]) then
    let! r := execute_alu_operation operation (PInt 0) in
    modify (set_alu_out r)
  else if 1 <? Z.of_nat (length valves) then
    let! b1 := eval (py_getitem valves (PInt 1)) in
    let! v := gets (get_bus_value b1) in
    let! r := execute_alu_operation operation v in
    modify (set_alu_out r)
  else ret tt.

Definition alu_working (operation : Opcode) (valves : list Operands) : M DataPath unit :=
  do! alu_latch valves in
  alu_apply operation valves.

(** ** ControlUnit *)

Record Timer : Type := mkTimer {
  time : Z;
  timer_delay : Z
}.

(** [Timer.__init__] *)
Definition Timer_init : Timer := {| time := -2; timer_delay := 0 |}.

(** An instruction is a dictionary with the keys ["index"], ["opcode"] and,
    optionally, ["arg"]. *)
Record Instruction : Type := mkInstruction {
  index : Z;
  opcode : Opcode;
  arg : option pyval
}.

Record ControlUnit : Type := mkControlUnit {
  ip : pyval;
  instructions : list Instruction;
  data_path : DataPath;
  timer : Timer;
  _tick : Z;
  int_vector : pyval;
  instr_counter : Z;
  ei : bool;
  int_rq : bool;
  instr : option Instruction
}.

Definition set_ip (v : pyval) (cu : ControlUnit) : ControlUnit :=
  mkControlUnit v (instructions cu) (data_path cu) (timer cu) (_tick cu)
    (int_vector cu) (instr_counter cu) (ei cu) (int_rq cu) (instr cu).

Definition set_data_path (dp : DataPath) (cu : ControlUnit) : ControlUnit :=
  mkControlUnit (ip cu) (instructions cu) dp (timer cu) (_tick cu)
    (int_vector cu) (instr_counter cu) (ei cu) (int_rq cu) (instr cu).

Definition set_timer (t : Timer) (cu : ControlUnit) : ControlUnit :=
  mkControlUnit (ip cu) (instructions cu) (data_path cu) t (_tick cu)
    (int_vector cu) (instr_counter cu) (ei cu) (int_rq cu) (instr cu).

Definition set__tick (t : Z) (cu : ControlUnit) : ControlUnit :=
  mkControlUnit (ip cu) (instructions cu) (data_path cu) (timer cu) t
    (int_vector cu) (instr_counter cu) (ei cu) (int_rq cu) (instr cu).

Definition set_instr_counter (c : Z) (cu : ControlUnit) : ControlUnit :=
  mkControlUnit (ip cu) (instructions cu) (data_path cu) (timer cu) (_tick cu)
    (int_vector cu) c (ei cu) (int_rq cu) (instr cu).

Definition set_ei (b : bool) (cu : ControlUnit) : ControlUnit :=
  mkControlUnit (ip cu) (instructions cu) (data_path cu) (timer cu) (_tick cu)
    (int_vector cu) (instr_counter cu) b (int_rq cu) (instr cu).

Definition set_int_rq (b : bool) (cu : ControlUnit) : ControlUnit :=
  mkControlUnit (ip cu) (instructions cu) (data_path cu) (timer cu) (_tick cu)
    (int_vector cu) (instr_counter cu) (ei cu) b (instr cu).

Definition set_instr (i : option Instruction) (cu : ControlUnit) : ControlUnit :=
  mkControlUnit (ip cu) (instructions cu) (data_path cu) (timer cu) (_tick cu)
    (int_vector cu) (instr_counter cu) (ei cu) (int_rq cu) i.

(** [ControlUnit.__init__]: entry 0 of the loaded list is the header that
    carries [_start]; it is deleted and the rest is the program.  The
    attribute [instr] does not exist until [execute] assigns it. *)
Definition ControlUnit_init (start : pyval) (program : list Instruction)
    (dp : DataPath) : ControlUnit :=
  {| ip := start;
     instructions := program;
     data_path := dp;
     timer := Timer_init;
     _tick := 0;
     int_vector := PInt 0;
     instr_counter := 0;
     ei := false;
     int_rq := false;
     instr := None |}.

Definition get_ticks : M ControlUnit Z := gets _tick.

(** The two calls of the logger are observations and leave no trace in the
    state. *)
Definition tick : M ControlUnit unit :=
  do! modify (fun cu => set__tick (_tick cu + 1) cu) in
  let! t := gets _tick in
  do! zoom data_path set_data_path
        (modify (fun dp => set_ports (add_input t (ports dp)) dp)) in
  do! zoom data_path set_data_path (modify (set_alu_out (PInt 0))) in
  do! zoom data_path set_data_path (modify (set_memory_out (PInt 0))) in
  let! enabled := gets ei in
  if enabled then
    do! modify (fun cu => set_timer (mkTimer (time (timer cu) + 1)
                                       (timer_delay (timer cu))) cu) in
    let! tm := gets (fun cu => time (timer cu)) in
    let! d := gets (fun cu => timer_delay (timer cu)) in
    let! r := eval (py_mod (PInt tm) (PInt d)) in
    if py_eq r (PInt 0) then modify (set_int_rq true) else ret tt
  else ret tt.

Definition signal_latch_ip (signal : Signal) (a : pyval) : M ControlUnit unit :=
  match signal with
  | NEXT_IP =>
      let! p := gets ip in
      let! p' := eval (py_add p (PInt 1)) in
      modify (set_ip p')
  | JMP_ARG => modify (set_ip a)
  | DATA_IP =>
      let! v := gets (fun cu => alu_out (data_path cu)) in
      modify (set_ip v)
  | _ => ret tt
  end.

(** *** The decoder *)

(** Modelled from the spec: [machine/decoder.py] is not part of the sources.
    A decoder object is built from the control unit, an opcode and an
    argument; [execute] reads and assigns its attributes [opcode] and [arg].
    Each of its methods runs against the control unit and may leave the
    decoder changed; the methods themselves are parameters. *)
Record Decoder : Type := mkDecoder {
  dec_opcode : Opcode;
  dec_arg : pyval
}.

Variable decode_memory_commands : Decoder -> M ControlUnit Decoder.
Variable decode_arithmetic_commands : Decoder -> M ControlUnit Decoder.
Variable decode_flow_commands : Decoder -> M ControlUnit (Decoder * Signal).
Variable decode_subprogram_commands : Decoder -> M ControlUnit Decoder.
Variable decode_interrupt_commands : Decoder -> M ControlUnit Decoder.
Variable decode_stack_commands : Decoder -> M ControlUnit Decoder.
Variable decode_io_commands : Decoder -> M ControlUnit Decoder.

(** The [if]/[elif] chain of [execute] over the opcode categories. *)
Definition dispatch (decode : Decoder) : M ControlUnit (Decoder * Signal) :=
  let op := dec_opcode decode in
  if decide (op ∈ [LOAD; STORE]) then
    let! d := decode_memory_commands decode in ret (d, NEXT_IP)
  else if decide (op ∈ arithmetic_operations) then
    let! d := decode_arithmetic_commands decode in ret (d, NEXT_IP)
  else if decide (op ∈ [JMP; JGE; JE; JNE]) then
    decode_flow_commands decode
  else if decide (op ∈ [CALL; RET; IRET; FUNC]) then
    let! d := decode_subprogram_commands decode in ret (d, NEXT_IP)
  else if decide (op ∈ [EI; DI; VECTOR; TIMER]) then
    let! d := decode_interrupt_commands decode in ret (d, NEXT_IP)
  else if decide (op ∈ [PUSH; POP]) then
    let! d := decode_stack_commands decode in ret (d, NEXT_IP)
  else if decide (op ∈ [IN; OUT; SIGN]) then
    let! d := decode_io_commands decode in ret (d, NEXT_IP)
  else ret (decode, NEXT_IP).

(** [self.instr[key]] once [instr] has been assigned *)
Definition current_instr : M ControlUnit Instruction :=
  let! i := gets instr in
  match i with
  | Some i => ret i
  | None => raise TypeError
  end.

(** One pass through the body of the [while] loop of [execute]. *)
Definition execute_body : M ControlUnit unit :=
  let! prog := gets instructions in
  let! p := gets ip in
  let! i := eval (py_getitem prog p) in
  do! modify (set_instr (Some i)) in
  do! modify (fun cu => set_instr_counter (instr_counter cu + 1) cu) in
  let! cur := current_instr in
  let decode := mkDecoder (opcode cur)
                  (match arg cur with Some a => a | None => PInt 0 end) in
  let! ds := dispatch decode in
  let decode := fst ds in
  let signal := snd ds in
  let! cur := current_instr in
  do! (if decide (opcode cur ∉ [CALL; IRET])
       then signal_latch_ip signal (dec_arg decode)
       else ret tt) in
  let! rq := gets int_rq in
  if rq then
    let! _ := decode_subprogram_commands (mkDecoder ISR (dec_arg decode)) in
    ret tt
  else ret tt.

(** ["".join(...)] *)
Definition join_output (l : list string) : string := String.concat "" l.

(** The tail of [execute], after the loop. *)
Definition execute_finish : M ControlUnit (string * Z * Z) :=
  let! prog := gets instructions in
  let! p := gets ip in
  let! i := eval (py_getitem prog p) in
  do! modify (set_instr (Some i)) in
  let! out := gets (fun cu => join_output (output_buffer (ports (data_path cu)))) in
  let! n := gets instr_counter in
  let! t := gets _tick in
  ret (out, n, t).

(** [execute]: the [while] loop runs at most [fuel] passes; [None] means the
    passes ran out before a HALT was fetched. *)
Fixpoint execute (fuel : nat) (cu : ControlUnit)
    : option (outcome ControlUnit (string * Z * Z)) :=
  match py_getitem (instructions cu) (ip cu) with
  | inl e => Some (Raised e cu)
  | inr i =>
      if decide (opcode i ≠ HALT) then
        match fuel with
        | O => None
        | S fuel' =>
            match execute_body cu with
            | Returned _ cu' => execute fuel' cu'
            | Raised e cu' => Some (Raised e cu')
            end
        end
      else Some (execute_finish cu)
  end.

End Machine.

Unset Implicit Arguments.

(** ** Reference semantics and sample machines *)

(** What the five binary operations compute on exact integers; [/] and [mod]
    on [Z] round the quotient toward negative infinity. *)
Definition spec_binop (op : Opcode) (v1 v2 : Z) : Z :=
  match op with
  | ADD => v1 + v2
  | SUB => v1 - v2
  | MUL => v1 * v2
  | DIV => v1 / v2
  | REM => v1 mod v2
  | _ => 0
  end.

(** The state [alu_working] has reached when it applies the operation, for a
    first operand whose bus value is the integer [v]. *)
Definition latched {Ports} (valves : list Operands) (v : Z) (dp : DataPath Ports)
    : DataPath Ports :=
  if decide (ACC ∈ valves)
  then set_flags (mkFlags (py_eq (acc dp) (PInt 0)) (v <? 0)) (set_alu_out (PInt v) dp)
  else set_alu_out (PInt v) dp.

(** The control unit once [tick] has advanced the tick counter, fed the
    ports and cleared the two latches (lines 108-111). *)
Definition tick_cleared {Ports} (add_input : Z -> Ports -> Ports)
    (cu : ControlUnit Ports) : ControlUnit Ports :=
  let t := _tick cu + 1 in
  let dp := data_path cu in
  set_data_path
    (set_memory_out (PInt 0)
       (set_alu_out (PInt 0) (set_ports (add_input t (ports dp)) dp)))
    (set__tick t cu).

(** ... and once it has advanced the timer (line 114). *)
Definition tick_timed {Ports} (add_input : Z -> Ports -> Ports)
    (cu : ControlUnit Ports) : ControlUnit Ports :=
  set_timer (mkTimer (time (timer cu) + 1) (timer_delay (timer cu)))
    (tick_cleared add_input cu).

(** A port model for the sample runs: the ticks fed in, the strings written. *)
Definition sample_ports : Type := list Z * list string.
Definition sample_add_input (t : Z) (p : sample_ports) : sample_ports :=
  (t :: fst p, snd p).
Definition sample_output_buffer (p : sample_ports) : list string := snd p.

(** Eight cells of memory, accumulator -3, everything else as constructed. *)
Definition sample_dp : DataPath sample_ports :=
  set_acc (PInt (-3)) (DataPath_init 8 ([], ["o"; "k"]%string)).

(** [sample_dp] with 7 in the buffer register and 42 in cell 6. *)
Definition sample_dp_mem : DataPath sample_ports :=
  set_buf_reg (PInt 7)
    (set_data_memory [PInt 0; PInt 0; PInt 0; PInt 0; PInt 0; PInt 0; PInt 42; PInt 0]
       sample_dp).

(** [sample_dp_mem] with the address register set. *)
Definition sample_dp_at (a : Z) : DataPath sample_ports :=
  set_address_reg (PInt a) sample_dp_mem.

Definition sample_program : list (Instruction) :=
  [mkInstruction 0 EI None; mkInstruction 1 INC None; mkInstruction 2 HALT None].

(** A freshly constructed control unit: timer delay 0, interrupts disabled. *)
Definition sample_cu : ControlUnit sample_ports :=
  ControlUnit_init (PInt 0) sample_program sample_dp.

(** The state the EI instruction leaves when no TIMER instruction ran. *)
Definition sample_cu_ei : ControlUnit sample_ports := set_ei true sample_cu.

(** Interrupts enabled, delay 3, and the counter one short of a multiple. *)
Definition sample_cu_timer : ControlUnit sample_ports :=
  set_timer (mkTimer 2 3) (set_ei true sample_cu).

(** Stopped on the HALT at index 2 after three instructions and seven ticks. *)
Definition sample_cu_halt : ControlUnit sample_ports :=
  set__tick 7 (set_instr_counter 3 (set_ip (PInt 2) sample_cu)).

(** A decoder that does nothing. *)
Definition idle_decoder (d : Decoder) : M (ControlUnit sample_ports) Decoder := ret d.
Definition idle_flow (d : Decoder) : M (ControlUnit sample_ports) (Decoder * Signal) :=
  ret (d, JMP_ARG).

Definition sample_execute :=
  execute sample_output_buffer idle_decoder idle_decoder idle_flow
    idle_decoder idle_decoder idle_decoder idle_decoder.

(** What the three unary operations compute on an exact integer. *)
Definition spec_unop (op : Opcode) (x : Z) : Z :=
  match op with
  | INC => x + 1
  | DEC => x - 1
  | MOVH => x * 2 ^ 24
  | _ => 0
  end.

(** Everything of a datapath except the two fields the ALU writes,
    [alu_out] and [flags]. *)
Definition alu_frame {Ports} (dp dp' : DataPath Ports) : Prop :=
  data_memory dp' = data_memory dp /\ ports dp' = ports dp
  /\ acc dp' = acc dp /\ buf_reg dp' = buf_reg dp
  /\ stack_pointer dp' = stack_pointer dp /\ address_reg dp' = address_reg dp
  /\ memory_out dp' = memory_out dp /\ in_interruption dp' = in_interruption dp.

(** [n] calls of [tick] in a row, the way the decoder issues them. *)
Fixpoint ticks {Ports} (add_input : Z -> Ports -> Ports) (n : nat)
    : M (ControlUnit Ports) unit :=
  match n with
  | O => ret tt
  | S n' => do! tick add_input in ticks add_input n'
  end.

(** Whether one of the counter values [t + 1 .. t + n] is a multiple of [d]. *)
Fixpoint multiple_within (t d : Z) (n : nat) : bool :=
  match n with
  | O => false
  | S n' => ((t + 1) mod d =? 0) || multiple_within (t + 1) d n'
  end.

(** [sample_dp] with [None] in the accumulator. *)
Definition sample_dp_none : DataPath sample_ports := set_acc PNone sample_dp.


(** [sample_cu] stopped on its HALT after the two instructions before it. *)
Definition sample_cu_end : ControlUnit sample_ports :=
  set_instr (Some (mkInstruction 2 HALT None))
    (set_instr_counter 2 (set_ip (PInt 2) sample_cu)).

(** Interrupts enabled on a fresh timer with delay 5. *)
Definition sample_cu_fresh5 : ControlUnit sample_ports :=
  set_timer (mkTimer (-2) 5) (set_ei true sample_cu).

(** Interrupts enabled, counter at 7, delay -4. *)
Definition sample_cu_negdelay : ControlUnit sample_ports :=
  set_timer (mkTimer 7 (-4)) (set_ei true sample_cu).

(** Everything of a datapath except [memory_out], the one field a READ
    assigns. *)
Definition read_frame {Ports} (dp dp' : DataPath Ports) : Prop :=
  data_memory dp' = data_memory dp /\ ports dp' = ports dp
  /\ acc dp' = acc dp /\ buf_reg dp' = buf_reg dp
  /\ stack_pointer dp' = stack_pointer dp /\ address_reg dp' = address_reg dp
  /\ flags dp' = flags dp /\ alu_out dp' = alu_out dp
  /\ in_interruption dp' = in_interruption dp.

(** Everything of a datapath except [data_memory], the one field a WRITE
    assigns. *)
Definition write_frame {Ports} (dp dp' : DataPath Ports) : Prop :=
  ports dp' = ports dp
  /\ acc dp' = acc dp /\ buf_reg dp' = buf_reg dp
  /\ stack_pointer dp' = stack_pointer dp /\ address_reg dp' = address_reg dp
  /\ memory_out dp' = memory_out dp
  /\ flags dp' = flags dp /\ alu_out dp' = alu_out dp
  /\ in_interruption dp' = in_interruption dp.

(** Accumulator 0, buffer register -5, flags clear. *)
Definition sample_dp_zero : DataPath sample_ports :=
  set_buf_reg (PInt (-5)) (DataPath_init 8 ([], [])).

(** [sample_dp_at a] with 5 waiting in [alu_out]. *)
Definition sample_dp_rw (a : Z) : DataPath sample_ports :=
  set_alu_out (PInt 5) (sample_dp_at a).

(** ** Properties *)

Section Facts.

Context {Ports : Type}.
Implicit Types (dp : DataPath Ports) (v : pyval) (b : Operands).

Ltac run :=
  unfold bind, gets, modify, eval, ret, raise, zoom in *; simpl in *.

(** Closes [x ∉ l], stated as [x ∈ l -> False], for distinct constructors. *)
Ltac not_elem :=
  let H := fresh "H" in
  intros H;
  repeat (apply elem_of_cons in H as [H|H]; [discriminate H|]);
  by apply elem_of_nil in H.

(** *** Subscripts *)

Lemma py_norm_index_nonneg len i :
  0 <= i < Z.of_nat len -> py_norm_index len i = Some (Z.to_nat i).
Proof.
  intros Hi. unfold py_norm_index.
  destruct (Z.ltb_spec i 0); [lia|]. cbv zeta.
  destruct (Z.ltb_spec i 0); [lia|].
  destruct (Z.leb_spec (Z.of_nat len) i); [lia|]. reflexivity.
Qed.

Lemma py_norm_index_neg len i :
  - Z.of_nat len <= i < 0 -> py_norm_index len i = Some (Z.to_nat (Z.of_nat len + i)).
Proof.
  intros Hi. unfold py_norm_index.
  destruct (Z.ltb_spec i 0); [|lia]. cbv zeta.
  destruct (Z.ltb_spec (i + Z.of_nat len) 0); [lia|].
  destruct (Z.leb_spec (Z.of_nat len) (i + Z.of_nat len)); [lia|].
  simpl. do 2 f_equal. lia.
Qed.

Lemma py_norm_index_above len i :
  Z.of_nat len <= i -> py_norm_index len i = None.
Proof.
  intros Hi. unfold py_norm_index.
  destruct (Z.ltb_spec i 0); [lia|]. cbv zeta.
  destruct (Z.ltb_spec i 0); [lia|].
  destruct (Z.leb_spec (Z.of_nat len) i); [|lia]. reflexivity.
Qed.

Lemma py_getitem_second {A} (x y : A) (l : list A) :
  py_getitem (x :: y :: l) (PInt 1) = inr y.
Proof.
  unfold py_getitem. rewrite py_norm_index_nonneg by (simpl length; lia).
  reflexivity.
Qed.

(** *** The ALU *)

Lemma get_bus_value_set_alu_out b v dp :
  get_bus_value b (set_alu_out v dp) = get_bus_value b dp.
Proof. by destruct b. Qed.

Lemma get_bus_value_set_flags b f dp :
  get_bus_value b (set_flags f dp) = get_bus_value b dp.
Proof. by destruct b. Qed.

Lemma get_bus_value_latched b valves x dp :
  get_bus_value b (latched valves x dp) = get_bus_value b dp.
Proof.
  unfold latched. case_decide.
  - by rewrite get_bus_value_set_flags, get_bus_value_set_alu_out.
  - apply get_bus_value_set_alu_out.
Qed.

Lemma alu_out_latched valves x dp : alu_out (latched valves x dp) = PInt x.
Proof. unfold latched. by case_decide. Qed.

(** The first stage of [alu_working] on an integer first operand. *)
Lemma alu_latch_int b rest x dp :
  get_bus_value b dp = PInt x ->
  alu_latch (b :: rest) dp = Returned tt (latched (b :: rest) x dp).
Proof.
  intros Hb. unfold alu_latch, latched. run. rewrite Hb.
  case_decide; reflexivity.
Qed.

Lemma alu_working_int b rest x op dp :
  get_bus_value b dp = PInt x ->
  alu_working op (b :: rest) dp = alu_apply op (b :: rest) (latched (b :: rest) x dp).
Proof.
  intros Hb. unfold alu_working, bind. by rewrite (alu_latch_int _ _ _ _ Hb).
Qed.

(** An operation that is not unary, given at least two operands, is applied
    to the second operand's bus value. *)
Lemma alu_apply_binary op b1 b2 rest dp :
  op ∉ [INC; DEC; MOVH] ->
  alu_apply op (b1 :: b2 :: rest) dp
  = (let! r := execute_alu_operation op (get_bus_value b2 dp) in
     modify (set_alu_out r)) dp.
Proof.
  intros Hop. unfold alu_apply. rewrite decide_False by exact Hop.
  replace (1 <? Z.of_nat (length (b1 :: b2 :: rest))) with true
    by (symmetry; apply Z.ltb_lt; simpl length; lia).
  unfold bind at 1. by rewrite py_getitem_second.
Qed.

(** Only the compare case of [execute_alu_operation] writes the flags, and
    no case writes anything else. *)
Lemma execute_alu_operation_state op v dp :
  op <> CMP -> state_of (execute_alu_operation op v dp) = dp.
Proof.
  intros Hop. destruct op; try contradiction; simpl; run;
    destruct (alu_out dp), v; simpl; try reflexivity;
    match goal with |- context [?a =? ?b] => destruct (a =? b) end; reflexivity.
Qed.

Lemma alu_apply_flags op valves dp :
  op <> CMP -> flags (state_of (alu_apply op valves dp)) = flags dp.
Proof.
  intros Hop. unfold alu_apply.
  case_decide.
  - unfold bind, modify.
    pose proof (execute_alu_operation_state op (PInt 0) dp Hop) as Hs.
    destruct (execute_alu_operation op (PInt 0) dp); simpl in *; by subst.
  - destruct (1 <? Z.of_nat (length valves)); [|reflexivity].
    unfold bind at 1. destruct (eval (py_getitem valves (PInt 1)) dp) as [b1 s|e s] eqn:Hg.
    + assert (s = dp) as ->.
      { unfold eval in Hg. destruct (py_getitem valves (PInt 1)); by inversion Hg. }
      unfold bind, gets, modify.
      pose proof (execute_alu_operation_state op (get_bus_value b1 dp) dp Hop) as Hs.
      destruct (execute_alu_operation op (get_bus_value b1 dp) dp); simpl in *; by subst.
    + assert (s = dp) as ->.
      { unfold eval in Hg. destruct (py_getitem valves (PInt 1)); by inversion Hg. }
      reflexivity.
Qed.

(** C3: in an [alu_working] invocation whose operands include the
    accumulator (the accumulator holding an integer [a], the first operand's
    bus value being an integer [x]), the state in which the operation is
    applied has [alu_out] loaded with [x], the zero flag equal to [a = 0]
    (the accumulator's own value) and the negative flag equal to [x < 0]
    (the freshly loaded [alu_out]); for every operation other than CMP these
    are the flags the invocation leaves, whether the operation returns or
    raises. *)
Theorem alu_working_acc_flag_snapshot op b rest x a dp :
  ACC ∈ b :: rest ->
  get_bus_value b dp = PInt x ->
  acc dp = PInt a ->
  (exists dp1,
      alu_latch (b :: rest) dp = Returned tt dp1
      /\ alu_working op (b :: rest) dp = alu_apply op (b :: rest) dp1
      /\ alu_out dp1 = PInt x
      /\ flag_z (flags dp1) = (a =? 0)
      /\ flag_n (flags dp1) = (x <? 0))
  /\ (op <> CMP ->
      flag_z (flags (state_of (alu_working op (b :: rest) dp))) = (a =? 0)
      /\ flag_n (flags (state_of (alu_working op (b :: rest) dp))) = (x <? 0)).
Proof.
  intros Hacc Hb Ha.
  assert (flags (latched (b :: rest) x dp) = mkFlags (a =? 0) (x <? 0)) as Hf.
  { unfold latched. rewrite decide_True by exact Hacc. simpl. by rewrite Ha. }
  split.
  - exists (latched (b :: rest) x dp).
    split; [by apply alu_latch_int|]. split; [by apply alu_working_int|].
    split; [apply alu_out_latched|]. by rewrite Hf.
  - intros Hop. rewrite (alu_working_int _ _ _ _ _ Hb).
    rewrite alu_apply_flags by exact Hop. by rewrite Hf.
Qed.

(** C4, as the code has it: the compare step, [execute_alu_operation] with
    CMP, returns [alu_out] and leaves it as it found it, writing only the
    flags, zero = (alu_out == operand2) and negative = (alu_out < operand2);
    an [alu_working] invocation with CMP and two bus operands of integer
    values [x1] and [x2] returns with [alu_out] equal to [x1], the first
    operand's value it latched (not the value [alu_out] had before the
    invocation), with the flags exactly (x1 == x2, x1 < x2) and every other
    field as before. *)
Theorem compare_keeps_alu_out_sets_flags dp :
  (forall a x2,
      alu_out dp = PInt a ->
      exists dp',
        execute_alu_operation CMP (PInt x2) dp = Returned (PInt a) dp'
        /\ alu_out dp' = alu_out dp
        /\ flag_z (flags dp') = (a =? x2)
        /\ flag_n (flags dp') = (a <? x2)
        /\ alu_frame dp dp')
  /\ (forall b1 b2 rest x1 x2,
        get_bus_value b1 dp = PInt x1 ->
        get_bus_value b2 dp = PInt x2 ->
        exists dp',
          alu_working CMP (b1 :: b2 :: rest) dp = Returned tt dp'
          /\ alu_out dp' = PInt x1
          /\ flag_z (flags dp') = (x1 =? x2)
          /\ flag_n (flags dp') = (x1 <? x2)
          /\ alu_frame dp dp').
Proof.
  split.
  - intros a x2 Ha.
    exists (set_flags (mkFlags (a =? x2) (a <? x2)) dp).
    split; [|by repeat split].
    simpl. run. rewrite Ha. simpl. by rewrite Ha.
  - intros b1 b2 rest x1 x2 H1 H2.
    exists (set_flags (mkFlags (x1 =? x2) (x1 <? x2)) (set_alu_out (PInt x1) dp)).
    split; [|by repeat split].
    rewrite (alu_working_int _ _ _ _ _ H1).
    rewrite alu_apply_binary by not_elem.
    rewrite get_bus_value_latched, H2. simpl. run.
    rewrite alu_out_latched. simpl.
    unfold latched. by case_decide.
Qed.

(** C5: [alu_working] with ADD, SUB, MUL, DIV or REM and two bus operands of
    integer values [x1] and [x2] ([x2] nonzero for DIV and REM) returns with
    [alu_out] equal to the exact integer result, where the quotient [q] and
    remainder [r] of DIV and REM satisfy [x1 = x2 * q + r] with [r] between 0
    and [x2] (floor rounding). *)
Theorem alu_working_binary_result op b1 b2 rest x1 x2 dp :
  op ∈ [ADD; SUB; MUL; DIV; REM] ->
  get_bus_value b1 dp = PInt x1 ->
  get_bus_value b2 dp = PInt x2 ->
  (op = DIV \/ op = REM -> x2 <> 0) ->
  alu_working op (b1 :: b2 :: rest) dp
  = Returned tt (set_alu_out (PInt (spec_binop op x1 x2)) (latched (b1 :: b2 :: rest) x1 dp))
  /\ (x2 <> 0 ->
      x1 = x2 * spec_binop DIV x1 x2 + spec_binop REM x1 x2
      /\ (0 <= spec_binop REM x1 x2 < x2 \/ x2 < spec_binop REM x1 x2 <= 0)).
Proof.
  intros Hop H1 H2 Hnz. split.
  - rewrite (alu_working_int _ _ _ _ _ H1).
    rewrite !elem_of_cons in Hop.
    destruct Hop as [->|[->|[->|[->|[->|Hop]]]]]; [..|by apply elem_of_nil in Hop];
      (rewrite alu_apply_binary by not_elem);
      rewrite get_bus_value_latched, H2; simpl; run;
      rewrite alu_out_latched; simpl; try reflexivity.
    + destruct (Z.eqb_spec x2 0) as [E|_]; [exfalso; apply Hnz; auto|reflexivity].
    + destruct (Z.eqb_spec x2 0) as [E|_]; [exfalso; apply Hnz; auto|reflexivity].
  - intros Hx. simpl. split; [apply Z.div_mod; exact Hx|].
    destruct (Z_lt_le_dec 0 x2).
    + left. apply Z.mod_pos_bound. lia.
    + right. apply Z.mod_neg_bound. lia.
Qed.

(** C2, as the code has it: [alu_working] with DIV or REM, a first operand
    of integer value [x1] and a second operand of value 0 raises
    ZeroDivisionError; the accumulator, buffer register, stack pointer,
    address register, [memory_out] and data memory are as before, while
    [alu_out] holds [x1] and, if the accumulator is among the operands, the
    flags hold the snapshot (acc == 0, x1 < 0). *)
Theorem alu_working_div_by_zero op b1 b2 rest x1 dp :
  op = DIV \/ op = REM ->
  get_bus_value b1 dp = PInt x1 ->
  get_bus_value b2 dp = PInt 0 ->
  let dp' := latched (b1 :: b2 :: rest) x1 dp in
  alu_working op (b1 :: b2 :: rest) dp = Raised ZeroDivisionError dp'
  /\ acc dp' = acc dp /\ buf_reg dp' = buf_reg dp
  /\ stack_pointer dp' = stack_pointer dp /\ address_reg dp' = address_reg dp
  /\ memory_out dp' = memory_out dp /\ data_memory dp' = data_memory dp
  /\ alu_out dp' = PInt x1
  /\ flags dp' = (if decide (ACC ∈ b1 :: b2 :: rest)
                  then mkFlags (py_eq (acc dp) (PInt 0)) (x1 <? 0)
                  else flags dp).
Proof.
  intros Hop H1 H2 dp'. split.
  - rewrite (alu_working_int _ _ _ _ _ H1). fold dp'.
    destruct Hop as [-> | ->]; (rewrite alu_apply_binary by not_elem);
      unfold dp'; rewrite get_bus_value_latched, H2; simpl; run;
      by rewrite alu_out_latched.
  - unfold dp', latched. case_decide; simpl; repeat split; reflexivity.
Qed.

(** *** The memory unit *)

Lemma memory_manager_read_at dp a k cell :
  address_reg dp = PInt a ->
  py_norm_index (length (data_memory dp)) a = Some k ->
  data_memory dp !! k = Some cell ->
  memory_manager READ dp = Returned tt (set_memory_out cell dp).
Proof.
  intros Ha Hk Hc. unfold memory_manager. rewrite decide_True by reflexivity.
  unfold bind, gets. rewrite Ha. unfold py_getitem. by rewrite Hk, Hc.
Qed.

Lemma memory_manager_write_at dp a k :
  address_reg dp = PInt a ->
  py_norm_index (length (data_memory dp)) a = Some k ->
  memory_manager WRITE dp
  = Returned tt (set_data_memory (<[k := alu_out dp]> (data_memory dp)) dp).
Proof.
  intros Ha Hk. unfold memory_manager.
  rewrite decide_False by discriminate. rewrite decide_True by reflexivity.
  unfold bind, gets. rewrite Ha. unfold py_setitem. by rewrite Hk.
Qed.

Lemma memory_manager_outside dp a op :
  address_reg dp = PInt a ->
  py_norm_index (length (data_memory dp)) a = None ->
  op = READ \/ op = WRITE ->
  memory_manager op dp = Raised IndexError dp.
Proof.
  intros Ha Hk [-> | ->]; unfold memory_manager.
  - rewrite decide_True by reflexivity.
    unfold bind, gets. rewrite Ha. unfold py_getitem. by rewrite Hk.
  - rewrite decide_False by discriminate. rewrite decide_True by reflexivity.
    unfold bind, gets. rewrite Ha. unfold py_setitem. by rewrite Hk.
Qed.

(** C8: with the address register holding [a] and [0 <= a < capacity], a
    read returns with [memory_out] equal to the cell at [a] and every other
    field as before, and a write returns with the cell at [a] equal to
    [alu_out], every other cell, the number of cells and every other field
    as before; with [a >= capacity] both raise IndexError, the memory-bounds
    error, and leave the state as it was. *)
Theorem memory_manager_bounds dp a :
  address_reg dp = PInt a ->
  let capacity := Z.of_nat (length (data_memory dp)) in
  (0 <= a < capacity ->
   exists cell,
     data_memory dp !! Z.to_nat a = Some cell
     /\ (exists dp',
           memory_manager READ dp = Returned tt dp'
           /\ memory_out dp' = cell
           /\ read_frame dp dp')
     /\ (exists dp',
           memory_manager WRITE dp = Returned tt dp'
           /\ data_memory dp' !! Z.to_nat a = Some (alu_out dp)
           /\ (forall j, j <> Z.to_nat a -> data_memory dp' !! j = data_memory dp !! j)
           /\ length (data_memory dp') = length (data_memory dp)
           /\ write_frame dp dp'))
  /\ (capacity <= a ->
      memory_manager READ dp = Raised IndexError dp
      /\ memory_manager WRITE dp = Raised IndexError dp).
Proof.
  intros Ha capacity. split.
  - intros Hin.
    assert (Z.to_nat a < length (data_memory dp))%nat as Hlt by (unfold capacity in Hin; lia).
    destruct (lookup_lt_is_Some_2 _ _ Hlt) as [cell Hcell].
    pose proof (py_norm_index_nonneg (length (data_memory dp)) a Hin) as Hk.
    exists cell. split; [exact Hcell|]. split.
    + exists (set_memory_out cell dp).
      split; [by apply (memory_manager_read_at dp a (Z.to_nat a))|].
      by repeat split.
    + exists (set_data_memory (<[Z.to_nat a := alu_out dp]> (data_memory dp)) dp).
      split; [by apply (memory_manager_write_at dp a)|].
      split; [simpl; by apply list_lookup_insert_eq|].
      split; [intros j Hj; simpl; by apply list_lookup_insert_ne|].
      split; [simpl; apply length_insert|].
      by repeat split.
  - intros Hout.
    pose proof (py_norm_index_above (length (data_memory dp)) a Hout) as Hk.
    split; apply (memory_manager_outside dp a); auto.
Qed.

(** C10: with the address register holding a negative [a] and
    [-capacity <= a < 0], neither a read nor a write raises: the read
    returns with [memory_out] equal to the cell at index [capacity + a], and
    the write returns with that same cell equal to [alu_out] and every other
    cell as before. *)
Theorem memory_manager_negative_wraps dp a :
  address_reg dp = PInt a ->
  let capacity := Z.of_nat (length (data_memory dp)) in
  - capacity <= a < 0 ->
  exists cell,
    data_memory dp !! Z.to_nat (capacity + a) = Some cell
    /\ (exists dp',
          memory_manager READ dp = Returned tt dp'
          /\ memory_out dp' = cell
          /\ read_frame dp dp')
    /\ (exists dp',
          memory_manager WRITE dp = Returned tt dp'
          /\ data_memory dp' !! Z.to_nat (capacity + a) = Some (alu_out dp)
          /\ (forall j, j <> Z.to_nat (capacity + a) ->
                        data_memory dp' !! j = data_memory dp !! j)
          /\ length (data_memory dp') = length (data_memory dp)
          /\ write_frame dp dp').
Proof.
  intros Ha capacity Hin.
  assert (Z.to_nat (capacity + a) < length (data_memory dp))%nat as Hlt
    by (unfold capacity in *; lia).
  destruct (lookup_lt_is_Some_2 _ _ Hlt) as [cell Hcell].
  pose proof (py_norm_index_neg (length (data_memory dp)) a Hin) as Hk.
  exists cell. split; [exact Hcell|]. split.
  - exists (set_memory_out cell dp).
    split; [by apply (memory_manager_read_at dp a (Z.to_nat (capacity + a)))|].
    by repeat split.
  - exists (set_data_memory (<[Z.to_nat (capacity + a) := alu_out dp]> (data_memory dp)) dp).
    split; [by apply (memory_manager_write_at dp a)|].
    split; [simpl; by apply list_lookup_insert_eq|].
    split; [intros j Hj; simpl; by apply list_lookup_insert_ne|].
    split; [simpl; apply length_insert|].
    by repeat split.
Qed.

Section ControlUnitFacts.

Variable add_input : Z -> Ports -> Ports.
Variable output_buffer : Ports -> list string.
Variable decode_memory_commands : Decoder -> M (ControlUnit Ports) Decoder.
Variable decode_arithmetic_commands : Decoder -> M (ControlUnit Ports) Decoder.
Variable decode_flow_commands : Decoder -> M (ControlUnit Ports) (Decoder * Signal).
Variable decode_subprogram_commands : Decoder -> M (ControlUnit Ports) Decoder.
Variable decode_interrupt_commands : Decoder -> M (ControlUnit Ports) Decoder.
Variable decode_stack_commands : Decoder -> M (ControlUnit Ports) Decoder.
Variable decode_io_commands : Decoder -> M (ControlUnit Ports) Decoder.

Implicit Types (cu : ControlUnit Ports).

(** *** The clock *)

(** [tick] by cases on the interrupt-enable flag, the delay and the
    advanced counter. *)
Lemma tick_cases cu :
  tick add_input cu
  = if ei cu then
      if timer_delay (timer cu) =? 0
      then Raised ZeroDivisionError (tick_timed add_input cu)
      else if (time (timer cu) + 1) mod timer_delay (timer cu) =? 0
           then Returned tt (set_int_rq true (tick_timed add_input cu))
           else Returned tt (tick_timed add_input cu)
    else Returned tt (tick_cleared add_input cu).
Proof.
  destruct cu as [p prog dp [tm d] t iv ic en rq cur].
  unfold tick, tick_timed, tick_cleared. run.
  destruct en; [|reflexivity]. simpl.
  destruct (d =? 0); [reflexivity|]. simpl.
  destruct ((tm + 1) mod d =? 0); reflexivity.
Qed.

(** With interrupts disabled a tick returns and leaves [int_rq] alone. *)
Lemma tick_disabled cu :
  ei cu = false ->
  tick add_input cu = Returned tt (tick_cleared add_input cu)
  /\ int_rq (tick_cleared add_input cu) = int_rq cu.
Proof. intros He. rewrite tick_cases, He. by split. Qed.

(** With interrupts enabled and delay 0 the remainder by the delay raises. *)
Lemma tick_enabled_delay0_raises cu :
  ei cu = true ->
  timer_delay (timer cu) = 0 ->
  tick add_input cu = Raised ZeroDivisionError (tick_timed add_input cu)
  /\ int_rq (tick_timed add_input cu) = int_rq cu.
Proof. intros He Hd. rewrite tick_cases, He, Hd. by split. Qed.

(** C6: whatever the two latches held, the state a tick leaves (returning or
    raising) has [alu_out] and [memory_out] at 0, and the tick behaves the
    same for any earlier content of the latches: it clears them without
    reading them. *)
Theorem tick_clears_latches cu :
  alu_out (data_path (state_of (tick add_input cu))) = PInt 0
  /\ memory_out (data_path (state_of (tick add_input cu))) = PInt 0
  /\ forall x y,
      tick add_input
        (set_data_path (set_memory_out y (set_alu_out x (data_path cu))) cu)
      = tick add_input cu.
Proof.
  split; [|split].
  - rewrite tick_cases.
    destruct (ei cu), (timer_delay (timer cu) =? 0),
      ((time (timer cu) + 1) mod timer_delay (timer cu) =? 0); reflexivity.
  - rewrite tick_cases.
    destruct (ei cu), (timer_delay (timer cu) =? 0),
      ((time (timer cu) + 1) mod timer_delay (timer cu) =? 0); reflexivity.
  - intros x y. rewrite !tick_cases. destruct cu as [p prog dp tmr t iv ic en rq cur].
    reflexivity.
Qed.

(** C7: the timer is constructed with [time = -2]; a tick adds exactly 1 to
    [time] when [ei] is true and leaves it alone when [ei] is false; and a
    tick with [ei] true, [delay > 0] and the advanced [time] a multiple of
    [delay] returns with [int_rq] true. *)
Theorem timer_counts_and_requests cu :
  time Timer_init = -2
  /\ (forall start prog dp, timer (ControlUnit_init start prog dp) = Timer_init)
  /\ time (timer (state_of (tick add_input cu)))
     = (if ei cu then time (timer cu) + 1 else time (timer cu))
  /\ (ei cu = true ->
      0 < timer_delay (timer cu) ->
      (time (timer cu) + 1) mod timer_delay (timer cu) = 0 ->
      tick add_input cu = Returned tt (set_int_rq true (tick_timed add_input cu))
      /\ int_rq (state_of (tick add_input cu)) = true).
Proof.
  split; [reflexivity|]. split; [reflexivity|]. split.
  - rewrite tick_cases.
    destruct (ei cu), (timer_delay (timer cu) =? 0),
      ((time (timer cu) + 1) mod timer_delay (timer cu) =? 0); reflexivity.
  - intros He Hd Hm. rewrite tick_cases, He, Hm.
    destruct (Z.eqb_spec (timer_delay (timer cu)) 0); [lia|]. by split.
Qed.

(** *** The fetch loop *)

(** C9: when the instruction at [ip] is a HALT, [execute] returns at once,
    for any bound on the number of passes: no pass of the loop body runs, so
    the decoder (and with it [tick]) is not called; the result is the
    joined output buffer, the instruction counter and the tick counter as
    they were on entry; the only field assigned is [instr]. *)
Theorem execute_halts_at_once fuel cu i :
  py_getitem (instructions cu) (ip cu) = inr i ->
  opcode i = HALT ->
  execute output_buffer decode_memory_commands decode_arithmetic_commands
    decode_flow_commands decode_subprogram_commands decode_interrupt_commands
    decode_stack_commands decode_io_commands fuel cu
  = Some (Returned (join_output (output_buffer (ports (data_path cu))),
                    instr_counter cu, _tick cu)
            (set_instr (Some i) cu))
  /\ _tick (set_instr (Some i) cu) = _tick cu
  /\ instr_counter (set_instr (Some i) cu) = instr_counter cu.
Proof.
  intros Hi Hh. split; [|by split].
  destruct fuel; simpl; rewrite Hi, decide_False by (intros H; by apply H);
    unfold execute_finish; run; by rewrite Hi.
Qed.

End ControlUnitFacts.

End Facts.

(** ** Concrete runs *)

(** C1 at the state EI leaves on a freshly constructed control unit: the
    delay is still 0, interrupts are enabled, and [tick] raises
    ZeroDivisionError at the remainder by the delay, having already advanced
    the tick counter and the timer; [int_rq] is still false. *)
Theorem tick_enabled_default_delay_raises :
  timer_delay (timer sample_cu_ei) = 0
  /\ ei sample_cu_ei = true
  /\ tick sample_add_input sample_cu_ei
     = Raised ZeroDivisionError (tick_timed sample_add_input sample_cu_ei)
  /\ _tick (tick_timed sample_add_input sample_cu_ei) = 1
  /\ time (timer (tick_timed sample_add_input sample_cu_ei)) = -1
  /\ int_rq (tick_timed sample_add_input sample_cu_ei) = false.
Proof. repeat split. Qed.

(** The same control unit with interrupts left disabled ticks normally. *)
Example tick_disabled_default_delay :
  tick sample_add_input sample_cu
  = Returned tt (tick_cleared sample_add_input sample_cu).
Proof. reflexivity. Qed.

(** C2 fails as stated: dividing the accumulator -3 by the buffer register 0
    raises, and the failing invocation has loaded [alu_out] and rewritten
    the flags. *)
Lemma div_by_zero_mutates_latch_and_flags :
  get_bus_value BUF sample_dp = PInt 0
  /\ alu_working DIV [ACC; BUF] sample_dp
     = Raised ZeroDivisionError
         (set_flags (mkFlags false true) (set_alu_out (PInt (-3)) sample_dp))
  /\ alu_out sample_dp = PInt 0
  /\ alu_out (state_of (alu_working DIV [ACC; BUF] sample_dp)) = PInt (-3)
  /\ flags sample_dp = mkFlags false false
  /\ flags (state_of (alu_working DIV [ACC; BUF] sample_dp)) = mkFlags false true.
Proof. repeat split. Qed.

Lemma alu_working_div_by_zero_witness :
  alu_working REM [ACC; BUF] sample_dp
  = Raised ZeroDivisionError (latched [ACC; BUF] (-3) sample_dp).
Proof.
  exact (proj1 (alu_working_div_by_zero REM ACC BUF [] (-3) sample_dp
                  (or_intror eq_refl) eq_refl eq_refl)).
Defined.

Lemma alu_working_acc_flag_snapshot_witness :
  flags sample_dp_zero = mkFlags false false
  /\ flag_z (flags (state_of (alu_working SUB [BUF; ACC] sample_dp_zero))) = true
  /\ flag_n (flags (state_of (alu_working SUB [BUF; ACC] sample_dp_zero))) = true.
Proof.
  assert (ACC ∈ [BUF; ACC]) as Hin by (right; left).
  assert (SUB <> CMP) as Hop by discriminate.
  destruct (proj2 (alu_working_acc_flag_snapshot SUB BUF [ACC] (-5) 0 sample_dp_zero
                     Hin eq_refl eq_refl) Hop) as [Hz Hn].
  split; [reflexivity|]. split; [exact Hz | exact Hn].
Defined.

(** C4 fails for the invocation as a whole: [alu_out] holds 0 before the
    compare of the buffer register 7 with the accumulator -3 and 7 after. *)
Lemma compare_reloads_alu_out :
  alu_out sample_dp_mem = PInt 0
  /\ alu_out (state_of (alu_working CMP [BUF; ACC] sample_dp_mem)) = PInt 7
  /\ alu_out (state_of (alu_working CMP [BUF; ACC] sample_dp_mem))
     <> alu_out sample_dp_mem.
Proof. repeat split. discriminate. Qed.

Lemma compare_keeps_alu_out_sets_flags_witness :
  flags sample_dp_mem = mkFlags false false
  /\ (exists dp',
        alu_working CMP [ACC; BUF] sample_dp_mem = Returned tt dp'
        /\ alu_out dp' = PInt (-3)
        /\ flag_z (flags dp') = false
        /\ flag_n (flags dp') = true)
  /\ (exists dp',
        alu_working CMP [BUF; BUF] sample_dp_mem = Returned tt dp'
        /\ alu_out dp' = PInt 7
        /\ flag_z (flags dp') = true
        /\ flag_n (flags dp') = false).
Proof.
  split; [reflexivity|].
  destruct (proj2 (compare_keeps_alu_out_sets_flags sample_dp_mem)
              ACC BUF [] (-3) 7 eq_refl eq_refl) as (dp1 & Hrun1 & Hout1 & Hz1 & Hn1 & _).
  destruct (proj2 (compare_keeps_alu_out_sets_flags sample_dp_mem)
              BUF BUF [] 7 7 eq_refl eq_refl) as (dp2 & Hrun2 & Hout2 & Hz2 & Hn2 & _).
  split; [exists dp1 | exists dp2]; repeat split; assumption.
Defined.

Lemma alu_working_binary_result_witness :
  alu_working DIV [ACC; BUF] sample_dp_mem
  = Returned tt (set_alu_out (PInt (-1)) (latched [ACC; BUF] (-3) sample_dp_mem)).
Proof.
  assert (DIV ∈ [ADD; SUB; MUL; DIV; REM]) as Hop by (do 3 right; left).
  assert (DIV = DIV \/ DIV = REM -> 7 <> 0) as Hnz by (intros _; discriminate).
  exact (proj1 (alu_working_binary_result DIV ACC BUF [] (-3) 7 sample_dp_mem
                  Hop eq_refl eq_refl Hnz)).
Defined.

Lemma memory_manager_bounds_witness :
  memory_out (sample_dp_rw 6) = PInt 0
  /\ (exists dp',
        memory_manager READ (sample_dp_rw 6) = Returned tt dp'
        /\ memory_out dp' = PInt 42)
  /\ (exists dp',
        memory_manager WRITE (sample_dp_rw 6) = Returned tt dp'
        /\ data_memory dp' !! 6%nat = Some (PInt 5))
  /\ memory_manager WRITE (sample_dp_rw 8) = Raised IndexError (sample_dp_rw 8).
Proof.
  split; [reflexivity|].
  destruct (proj1 (memory_manager_bounds (sample_dp_rw 6) 6 eq_refl))
    as (cell & Hcell & (dpr & Hread & Hout & _) & (dpw & Hwrite & Hat & _));
    [simpl; lia|].
  simpl in Hcell. injection Hcell as <-.
  split; [exists dpr; by split|]. split; [exists dpw; by split|].
  apply (proj2 (memory_manager_bounds (sample_dp_rw 8) 8 eq_refl)). simpl. lia.
Defined.

Lemma memory_manager_negative_wraps_witness :
  memory_out (sample_dp_rw (-2)) = PInt 0
  /\ (exists dp',
        memory_manager READ (sample_dp_rw (-2)) = Returned tt dp'
        /\ memory_out dp' = PInt 42)
  /\ (exists dp',
        memory_manager WRITE (sample_dp_rw (-2)) = Returned tt dp'
        /\ data_memory dp' !! 6%nat = Some (PInt 5)).
Proof.
  split; [reflexivity|].
  destruct (memory_manager_negative_wraps (sample_dp_rw (-2)) (-2) eq_refl)
    as (cell & Hcell & (dpr & Hread & Hout & _) & (dpw & Hwrite & Hat & _));
    [simpl; lia|].
  simpl in Hcell. injection Hcell as <-.
  split; [exists dpr; by split | exists dpw; by split].
Defined.

Lemma timer_counts_and_requests_witness :
  tick sample_add_input sample_cu_timer
  = Returned tt (set_int_rq true (tick_timed sample_add_input sample_cu_timer))
  /\ int_rq (state_of (tick sample_add_input sample_cu_timer)) = true.
Proof.
  apply (timer_counts_and_requests sample_add_input sample_cu_timer);
    [reflexivity | simpl; lia | reflexivity].
Defined.

Lemma execute_halts_at_once_witness :
  sample_execute 0%nat sample_cu_halt
  = Some (Returned ("ok"%string, 3, 7)
            (set_instr (Some (mkInstruction 2 HALT None)) sample_cu_halt)).
Proof.
  exact (proj1 (execute_halts_at_once sample_output_buffer idle_decoder idle_decoder
                  idle_flow idle_decoder idle_decoder idle_decoder idle_decoder
                  0%nat sample_cu_halt (mkInstruction 2 HALT None) eq_refl eq_refl)).
Defined.

(** Two passes of the loop and then the HALT: with a decoder that never
    ticks, the counters read 2 and 0. *)
Example sample_program_runs :
  exists cu', sample_execute 2%nat sample_cu = Some (Returned ("ok"%string, 2, 0) cu').
Proof. eexists. reflexivity. Qed.

(** ** Further properties of the datapath *)

Section DataPathFacts.

Context {Ports : Type}.
Implicit Types (dp : DataPath Ports) (v : pyval) (b : Operands).

#[local] Arguments py_getitem {A} l i : simpl never.
#[local] Arguments py_setitem {A} l i v : simpl never.

Ltac step := unfold bind, gets, modify, eval, ret, raise; simpl.

Ltac distinct :=
  let H := fresh "H" in
  intros H;
  repeat (apply elem_of_cons in H as [H|H]; [discriminate H|]);
  by apply elem_of_nil in H.

Lemma alu_frame_refl dp : alu_frame dp dp.
Proof. repeat split. Qed.

Lemma alu_frame_trans dp1 dp2 dp3 :
  alu_frame dp1 dp2 -> alu_frame dp2 dp3 -> alu_frame dp1 dp3.
Proof.
  unfold alu_frame. intros (?&?&?&?&?&?&?&?) (?&?&?&?&?&?&?&?).
  repeat split; congruence.
Qed.

Lemma alu_frame_set_alu_out v dp : alu_frame dp (set_alu_out v dp).
Proof. repeat split. Qed.

Lemma alu_frame_set_flags f dp : alu_frame dp (set_flags f dp).
Proof. repeat split. Qed.

Lemma eval_state {A} (r : exn + A) dp : state_of (eval r dp) = dp.
Proof. by destruct r. Qed.

Lemma execute_alu_operation_frame op v dp :
  alu_frame dp (state_of (execute_alu_operation op v dp))
  /\ alu_out (state_of (execute_alu_operation op v dp)) = alu_out dp.
Proof.
  destruct (decide (op = CMP)) as [->|Hop].
  - simpl. step. destruct (py_lt (alu_out dp) v); simpl; by split.
  - rewrite execute_alu_operation_state by exact Hop. split; [apply alu_frame_refl|done].
Qed.

Lemma alu_latch_frame valves dp :
  alu_frame dp (state_of (alu_latch valves dp)).
Proof.
  unfold alu_latch. step.
  destruct (py_getitem valves (PInt 0)) as [e|b0]; simpl; [apply alu_frame_refl|].
  case_decide; simpl; [|apply alu_frame_set_alu_out].
  destruct (py_lt (get_bus_value b0 dp) (PInt 0)); simpl;
    repeat split.
Qed.

Lemma alu_apply_frame op valves dp :
  alu_frame dp (state_of (alu_apply op valves dp)).
Proof.
  unfold alu_apply. case_decide.
  - unfold bind, modify.
    pose proof (execute_alu_operation_frame op (PInt 0) dp) as [Hf _].
    destruct (execute_alu_operation op (PInt 0) dp); simpl in *;
      [eapply alu_frame_trans; [exact Hf|apply alu_frame_set_alu_out] | exact Hf].
  - destruct (1 <? Z.of_nat (length valves)); [|apply alu_frame_refl].
    unfold bind at 1, eval.
    destruct (py_getitem valves (PInt 1)) as [e|b1]; simpl; [apply alu_frame_refl|].
    unfold bind, gets, modify.
    pose proof (execute_alu_operation_frame op (get_bus_value b1 dp) dp) as [Hf _].
    destruct (execute_alu_operation op (get_bus_value b1 dp) dp); simpl in *;
      [eapply alu_frame_trans; [exact Hf|apply alu_frame_set_alu_out] | exact Hf].
Qed.

(** X1: whatever the operation and the operands, and whether it returns or
    raises, [alu_working] writes no field other than [alu_out] and [flags]:
    memory, ports, accumulator, buffer register, stack pointer, address
    register and [memory_out] are as before. *)
Theorem alu_working_writes_only_latch_and_flags op valves dp :
  alu_frame dp (state_of (alu_working op valves dp)).
Proof.
  unfold alu_working, bind.
  pose proof (alu_latch_frame valves dp) as Hl.
  destruct (alu_latch valves dp) as [[] dp1|e dp1]; simpl in *; [|exact Hl].
  eapply alu_frame_trans; [exact Hl|apply alu_apply_frame].
Qed.

Lemma alu_latch_flags_without_acc valves dp :
  ACC ∉ valves -> flags (state_of (alu_latch valves dp)) = flags dp.
Proof.
  intros Hacc. unfold alu_latch. step.
  destruct (py_getitem valves (PInt 0)) as [e|b0]; simpl; [done|].
  by rewrite decide_False.
Qed.

(** X2: an invocation that neither selects the accumulator nor is a compare
    leaves the flags as they were, whether it returns or raises. *)
Theorem alu_working_keeps_flags op valves dp :
  ACC ∉ valves -> op <> CMP ->
  flags (state_of (alu_working op valves dp)) = flags dp.
Proof.
  intros Hacc Hop. unfold alu_working, bind.
  pose proof (alu_latch_flags_without_acc valves dp Hacc) as Hl.
  destruct (alu_latch valves dp) as [[] dp1|e dp1]; simpl in *; [|exact Hl].
  by rewrite alu_apply_flags.
Qed.

(** With no operand selected, [alu_working] raises IndexError at
    [valves[0]] before it writes anything. *)
Lemma alu_working_no_operand op dp :
  alu_working op [] dp = Raised IndexError dp.
Proof. reflexivity. Qed.

(** X3: the unary operations use the first operand only: with an integer
    first operand [x], INC, DEC and MOVH return with [alu_out] equal to
    [x + 1], [x - 1] and [x * 2^24], whatever further operands are selected
    and whatever they hold; the MOVH result has its low 24 bits clear and
    shifting it back gives [x]. *)
Theorem alu_working_unary_result op b rest x dp :
  op ∈ [INC; DEC; MOVH] ->
  get_bus_value b dp = PInt x ->
  alu_working op (b :: rest) dp
  = Returned tt (set_alu_out (PInt (spec_unop op x)) (latched (b :: rest) x dp))
  /\ spec_unop MOVH x mod 2 ^ 24 = 0
  /\ spec_unop MOVH x / 2 ^ 24 = x.
Proof.
  intros Hop Hb. split; [|split].
  - rewrite (alu_working_int _ _ _ _ _ Hb). unfold alu_apply.
    rewrite decide_True by exact Hop.
    rewrite !elem_of_cons in Hop.
    destruct Hop as [->|[->|[->|Hop]]]; [..|by apply elem_of_nil in Hop];
      simpl; step; rewrite alu_out_latched; simpl; try reflexivity.
    by rewrite Z.shiftl_mul_pow2.
  - simpl. apply Z.mod_mul. lia.
  - simpl. apply Z.div_mul. lia.
Qed.

(** X4: with exactly one operand selected, an operation that is not unary is
    not applied at all: [alu_working] only latches the operand (and takes the
    flag snapshot if it is the accumulator), so DIV and REM cannot raise and
    CMP does not compare. *)
Theorem alu_working_single_operand op b x dp :
  op ∉ [INC; DEC; MOVH] ->
  get_bus_value b dp = PInt x ->
  alu_working op [b] dp = Returned tt (latched [b] x dp).
Proof.
  intros Hop Hb. rewrite (alu_working_int _ _ _ _ _ Hb).
  unfold alu_apply. by rewrite decide_False.
Qed.

(** X5: an opcode that is not one of the nine arithmetic operations, applied
    to two operands, falls through [execute_alu_operation]: the invocation
    returns with [None] in [alu_out]; [signal_latch_acc] with a selector
    other than DIRECT_ACC_LOAD then puts that [None] in the accumulator, and
    from there every invocation whose first operand is the accumulator,
    whatever its operation and further operands, raises TypeError with
    [None] latched into [alu_out]. *)
Theorem alu_working_foreign_opcode op b1 b2 rest x sel load dp :
  op ∉ arithmetic_operations ->
  get_bus_value b1 dp = PInt x ->
  sel <> DIRECT_ACC_LOAD ->
  let after := (do! alu_working op (b1 :: b2 :: rest) in signal_latch_acc sel load) dp in
  (exists dp1,
      alu_working op (b1 :: b2 :: rest) dp = Returned tt dp1
      /\ alu_out dp1 = PNone)
  /\ (exists dp2, after = Returned tt dp2 /\ acc dp2 = PNone)
  /\ forall op' rest',
      exists dp',
        alu_working op' (ACC :: rest') (state_of after) = Raised TypeError dp'
        /\ alu_out dp' = PNone.
Proof.
  intros Hop Hb Hsel after.
  assert (alu_working op (b1 :: b2 :: rest) dp
          = Returned tt (set_alu_out PNone (latched (b1 :: b2 :: rest) x dp))) as Hw.
  { rewrite (alu_working_int _ _ _ _ _ Hb).
    rewrite alu_apply_binary
      by (intros H; apply Hop; unfold arithmetic_operations;
          rewrite !elem_of_cons in *; tauto).
    unfold arithmetic_operations in Hop. rewrite !elem_of_cons, elem_of_nil in Hop.
    destruct op; simpl; try reflexivity; exfalso; apply Hop; tauto. }
  split; [eexists; split; [exact Hw|reflexivity]|].
  assert (after = Returned tt (set_acc PNone
                                 (set_alu_out PNone (latched (b1 :: b2 :: rest) x dp))))
    as Hafter.
  { unfold after, bind. rewrite Hw. unfold signal_latch_acc.
    by rewrite decide_False. }
  split; [eexists; split; [exact Hafter|reflexivity]|].
  intros op' rest'. rewrite Hafter. simpl.
  eexists. split.
  - unfold alu_working, alu_latch, py_getitem. step. reflexivity.
  - reflexivity.
Qed.

(** The state a compare of two integer operands leaves. *)
Lemma alu_working_cmp_state b1 b2 rest x1 x2 dp :
  get_bus_value b1 dp = PInt x1 ->
  get_bus_value b2 dp = PInt x2 ->
  alu_working CMP (b1 :: b2 :: rest) dp
  = Returned tt (set_flags (mkFlags (x1 =? x2) (x1 <? x2)) (set_alu_out (PInt x1) dp)).
Proof.
  intros H1 H2. rewrite (alu_working_int _ _ _ _ _ H1).
  rewrite alu_apply_binary by distinct.
  rewrite get_bus_value_latched, H2. simpl. step.
  rewrite alu_out_latched. simpl. unfold latched. by case_decide.
Qed.

(** X6: after a compare of integer operands [x1] and [x2] the zero flag says
    [x1 = x2], the negative flag says [x1 < x2], the two are never set
    together, and both are clear exactly when [x1 > x2]. *)
Theorem compare_flags_trichotomy b1 b2 rest x1 x2 dp :
  get_bus_value b1 dp = PInt x1 ->
  get_bus_value b2 dp = PInt x2 ->
  let f := flags (state_of (alu_working CMP (b1 :: b2 :: rest) dp)) in
  (flag_z f = true <-> x1 = x2)
  /\ (flag_n f = true <-> x1 < x2)
  /\ flag_z f && flag_n f = false
  /\ (flag_z f = false /\ flag_n f = false <-> x1 > x2).
Proof.
  intros H1 H2 f. unfold f. rewrite (alu_working_cmp_state _ _ _ _ _ _ H1 H2). simpl.
  destruct (Z.eqb_spec x1 x2), (Z.ltb_spec x1 x2); simpl;
    repeat split; intros; try lia; try discriminate; try tauto.
Qed.

(** The state a binary operation on integer operands leaves. *)
Lemma alu_working_binop_state op b1 b2 rest x1 x2 dp :
  op ∈ [ADD; SUB; MUL; DIV; REM] ->
  get_bus_value b1 dp = PInt x1 ->
  get_bus_value b2 dp = PInt x2 ->
  (op = DIV \/ op = REM -> x2 <> 0) ->
  alu_working op (b1 :: b2 :: rest) dp
  = Returned tt (set_alu_out (PInt (spec_binop op x1 x2)) (latched (b1 :: b2 :: rest) x1 dp)).
Proof.
  intros Hop H1 H2 Hnz. rewrite (alu_working_int _ _ _ _ _ H1).
  rewrite !elem_of_cons in Hop.
  destruct Hop as [->|[->|[->|[->|[->|Hop]]]]]; [..|by apply elem_of_nil in Hop];
    (rewrite alu_apply_binary by distinct);
    rewrite get_bus_value_latched, H2; simpl; step;
    rewrite alu_out_latched; simpl; try reflexivity;
    (destruct (Z.eqb_spec x2 0); [exfalso; apply Hnz; auto|reflexivity]).
Qed.

(** X7: a binary operation followed by [signal_latch_acc] with any selector
    other than DIRECT_ACC_LOAD puts the result in the accumulator, where the
    accumulator bus reads it back; the [load] argument is ignored, and the
    other three buses read what they read before.  With DIRECT_ACC_LOAD the
    accumulator takes [load] and the ALU result is ignored. *)
Theorem alu_result_latched_into_acc op b1 b2 rest x1 x2 sel load dp :
  op ∈ [ADD; SUB; MUL; DIV; REM] ->
  get_bus_value b1 dp = PInt x1 ->
  get_bus_value b2 dp = PInt x2 ->
  (op = DIV \/ op = REM -> x2 <> 0) ->
  exists dp',
    (do! alu_working op (b1 :: b2 :: rest) in signal_latch_acc sel load) dp
    = Returned tt dp'
    /\ get_bus_value ACC dp'
       = (if decide (sel = DIRECT_ACC_LOAD) then load else PInt (spec_binop op x1 x2))
    /\ alu_out dp' = PInt (spec_binop op x1 x2)
    /\ forall b, b <> ACC -> get_bus_value b dp' = get_bus_value b dp.
Proof.
  intros Hop H1 H2 Hnz. unfold bind.
  rewrite (alu_working_binop_state _ _ _ _ _ _ _ Hop H1 H2 Hnz).
  unfold signal_latch_acc. case_decide; step; eexists; (split; [reflexivity|]);
    simpl; (split; [reflexivity|]); (split; [reflexivity|]);
    intros b Hb; destruct b; try contradiction; simpl;
    unfold latched; case_decide; reflexivity.
Qed.


(** X9: on a datapath whose four bus registers hold integers,
    [alu_working] never raises TypeError; it raises only IndexError, exactly
    for an empty operand list, and ZeroDivisionError, only for DIV or REM
    with at least two operands and a second operand whose bus value is 0. *)
Theorem alu_working_raise_causes op valves e dp dp' :
  (forall b, exists x, get_bus_value b dp = PInt x) ->
  alu_working op valves dp = Raised e dp' ->
  (valves = [] /\ e = IndexError /\ dp' = dp)
  \/ (e = ZeroDivisionError
      /\ (op = DIV \/ op = REM)
      /\ exists b1 b2 rest,
          valves = b1 :: b2 :: rest /\ get_bus_value b2 dp = PInt 0).
Proof.
  intros Hint Hraise.
  destruct valves as [|b1 rest].
  - left. by inversion Hraise.
  - right. destruct (Hint b1) as [x1 H1].
    rewrite (alu_working_int _ _ _ _ _ H1) in Hraise.
    destruct (decide (op ∈ [INC; DEC; MOVH])) as [Hu|Hu].
    + exfalso. unfold alu_apply in Hraise. rewrite decide_True in Hraise by exact Hu.
      rewrite !elem_of_cons in Hu.
      destruct Hu as [->|[->|[->|Hu]]]; [..|by apply elem_of_nil in Hu];
        simpl in Hraise; unfold bind, gets, eval, modify in Hraise;
        rewrite alu_out_latched in Hraise; discriminate.
    + destruct rest as [|b2 rest].
      { exfalso. unfold alu_apply in Hraise.
        rewrite decide_False in Hraise by exact Hu. discriminate. }
      destruct (Hint b2) as [x2 H2].
      rewrite alu_apply_binary in Hraise by exact Hu.
      rewrite get_bus_value_latched, H2 in Hraise.
      assert (x2 = 0 -> get_bus_value b2 dp = PInt 0) as Hz by (by intros <-).
      destruct op; simpl in Hraise;
        unfold bind, gets, eval, modify, ret, raise in Hraise;
        rewrite ?alu_out_latched in Hraise; simpl in Hraise;
        try discriminate;
        (destruct (Z.eqb_spec x2 0) as [E|E]; [|discriminate]);
        injection Hraise as <- _; (split; [reflexivity|]);
        (split; [auto|]); exists b1, b2, rest; auto.
Qed.

(** *** Memory *)

Lemma py_norm_index_lt len i k :
  py_norm_index len i = Some k -> (k < len)%nat.
Proof.
  unfold py_norm_index. destruct (Z.ltb_spec i 0); cbv zeta.
  - destruct (Z.ltb_spec (i + Z.of_nat len) 0); simpl; [discriminate|].
    destruct (Z.leb_spec (Z.of_nat len) (i + Z.of_nat len)); [discriminate|].
    intros [= <-]. lia.
  - destruct (Z.ltb_spec i 0); simpl; [lia|].
    destruct (Z.leb_spec (Z.of_nat len) i); [discriminate|].
    intros [= <-]. lia.
Qed.

Lemma py_norm_index_none len i :
  py_norm_index len i = None -> i < - Z.of_nat len \/ Z.of_nat len <= i.
Proof.
  unfold py_norm_index. destruct (Z.ltb_spec i 0); cbv zeta.
  - destruct (Z.ltb_spec (i + Z.of_nat len) 0); simpl; [lia|].
    destruct (Z.leb_spec (Z.of_nat len) (i + Z.of_nat len)); [lia|discriminate].
  - destruct (Z.ltb_spec i 0); simpl; [lia|].
    destruct (Z.leb_spec (Z.of_nat len) i); [lia|discriminate].
Qed.

Lemma py_norm_index_below len i :
  i < - Z.of_nat len -> py_norm_index len i = None.
Proof.
  intros Hi. unfold py_norm_index.
  destruct (Z.ltb_spec i 0); [|lia]. cbv zeta.
  destruct (Z.ltb_spec (i + Z.of_nat len) 0); [reflexivity|lia].
Qed.

(** X10: a write followed by a read of the same cell returns the written
    value, also when the two addresses differ and name the cell once from the
    front and once from the end: [WRITE] at [a1], a direct load of [a2] into
    the address register and [READ] leave [alu_out] in [memory_out]. *)
Theorem memory_write_then_read_same_cell a1 a2 k dp :
  address_reg dp = PInt a1 ->
  py_norm_index (length (data_memory dp)) a1 = Some k ->
  py_norm_index (length (data_memory dp)) a2 = Some k ->
  exists dp',
    (do! memory_manager WRITE in
     do! signal_latch_address DIRECT_ADDRESS_LOAD (PInt a2) in
     memory_manager READ) dp = Returned tt dp'
    /\ memory_out dp' = alu_out dp
    /\ data_memory dp' = <[k := alu_out dp]> (data_memory dp)
    /\ alu_out dp' = alu_out dp.
Proof.
  intros Ha H1 H2. unfold bind at 1.
  rewrite (memory_manager_write_at dp a1 k Ha H1).
  unfold bind. unfold signal_latch_address. rewrite decide_True by reflexivity.
  unfold modify.
  pose proof (py_norm_index_lt _ _ _ H1) as Hlt.
  erewrite (memory_manager_read_at _ a2 k (alu_out dp)).
  - eexists. split; [reflexivity|]. by repeat split.
  - reflexivity.
  - simpl. by rewrite length_insert.
  - simpl. by apply list_lookup_insert_eq.
Qed.

(** X11: a write does not disturb any other cell: after [WRITE] at [a1], a
    read at an address [a2] that names a different cell returns what that
    cell held before the write. *)
Theorem memory_write_then_read_other_cell a1 a2 k1 k2 c dp :
  address_reg dp = PInt a1 ->
  py_norm_index (length (data_memory dp)) a1 = Some k1 ->
  py_norm_index (length (data_memory dp)) a2 = Some k2 ->
  k1 <> k2 ->
  data_memory dp !! k2 = Some c ->
  exists dp',
    (do! memory_manager WRITE in
     do! signal_latch_address DIRECT_ADDRESS_LOAD (PInt a2) in
     memory_manager READ) dp = Returned tt dp'
    /\ memory_out dp' = c.
Proof.
  intros Ha H1 H2 Hne Hc. unfold bind at 1.
  rewrite (memory_manager_write_at dp a1 k1 Ha H1).
  unfold bind. unfold signal_latch_address. rewrite decide_True by reflexivity.
  unfold modify.
  erewrite (memory_manager_read_at _ a2 k2 c).
  - eexists. by split.
  - reflexivity.
  - simpl. by rewrite length_insert.
  - simpl. by rewrite list_lookup_insert_ne.
Qed.

(** X12: [memory_manager] raises only for READ and WRITE, only when the
    address register holds [None] (TypeError) or an integer outside
    [-capacity, capacity) (IndexError), and then it has changed nothing. *)
Theorem memory_manager_raise_is_atomic op e dp dp' :
  memory_manager op dp = Raised e dp' ->
  dp' = dp
  /\ (op = READ \/ op = WRITE)
  /\ match address_reg dp with
     | PNone => e = TypeError
     | PInt a =>
         e = IndexError
         /\ (a < - Z.of_nat (length (data_memory dp))
             \/ Z.of_nat (length (data_memory dp)) <= a)
     end.
Proof.
  unfold memory_manager. case_decide as Hr; [|case_decide as Hw].
  - subst op. unfold bind, gets, py_getitem.
    destruct (address_reg dp) as [a|]; [|simpl; intros [= <- <-]; auto].
    destruct (py_norm_index (length (data_memory dp)) a) as [k|] eqn:Hk.
    + pose proof (py_norm_index_lt _ _ _ Hk) as Hlt.
      destruct (lookup_lt_is_Some_2 _ _ Hlt) as [c Hc]. rewrite Hc. discriminate.
    + simpl. intros [= <- <-]. apply py_norm_index_none in Hk. auto.
  - subst op. unfold bind, gets, py_setitem.
    destruct (address_reg dp) as [a|]; [|simpl; intros [= <- <-]; auto].
    destruct (py_norm_index (length (data_memory dp)) a) as [k|] eqn:Hk.
    + discriminate.
    + simpl. intros [= <- <-]. apply py_norm_index_none in Hk. auto.
  - discriminate.
Qed.

(** X13: READ and WRITE raise TypeError when the address register holds
    [None] and IndexError when it holds an integer below [-capacity]; the
    state is left as it was. *)
Theorem memory_manager_none_or_below op dp :
  op = READ \/ op = WRITE ->
  (address_reg dp = PNone -> memory_manager op dp = Raised TypeError dp)
  /\ (forall a, address_reg dp = PInt a ->
                a < - Z.of_nat (length (data_memory dp)) ->
                memory_manager op dp = Raised IndexError dp).
Proof.
  intros Hop. split.
  - intros Ha. destruct Hop as [-> | ->]; unfold memory_manager.
    + rewrite decide_True by reflexivity. unfold bind, gets. by rewrite Ha.
    + rewrite decide_False by discriminate. rewrite decide_True by reflexivity.
      unfold bind, gets. by rewrite Ha.
  - intros a Ha Hlow. apply (memory_manager_outside dp a); auto.
    by apply py_norm_index_below.
Qed.

(** X14: no signal changes the number of memory cells: whatever the
    operation and whether it returns or raises, the capacity after
    [memory_manager] is the capacity before. *)
Theorem memory_manager_keeps_capacity op dp :
  length (data_memory (state_of (memory_manager op dp))) = length (data_memory dp).
Proof.
  unfold memory_manager. case_decide; [|case_decide]; [| |reflexivity].
  - unfold bind, gets, eval.
    destruct (py_getitem (data_memory dp) (address_reg dp)); reflexivity.
  - unfold bind, gets, eval, py_setitem.
    destruct (address_reg dp) as [a|]; [|reflexivity].
    destruct (py_norm_index (length (data_memory dp)) a); simpl; [|reflexivity].
    apply length_insert.
Qed.

(** X15: a datapath built with capacity [n] has [n] cells (none if [n] is
    negative), every one holding 0; built with capacity 0 or less, every READ
    and WRITE at an integer address raises IndexError. *)
Theorem DataPath_init_memory n (p : Ports) :
  length (data_memory (DataPath_init n p)) = Z.to_nat n
  /\ (forall k c, data_memory (DataPath_init n p) !! k = Some c -> c = PInt 0)
  /\ (n <= 0 ->
      forall a op, op = READ \/ op = WRITE ->
        memory_manager op (set_address_reg (PInt a) (DataPath_init n p))
        = Raised IndexError (set_address_reg (PInt a) (DataPath_init n p))).
Proof.
  split; [apply length_replicate|]. split.
  - intros k c Hk. simpl in Hk. apply lookup_replicate in Hk. tauto.
  - intros Hn a op Hop. apply (memory_manager_outside _ a); auto.
    simpl. rewrite length_replicate.
    replace (Z.to_nat n) with 0%nat by lia.
    destruct (Z_lt_le_dec a 0);
      [apply py_norm_index_below | apply py_norm_index_above]; simpl; lia.
Qed.

End DataPathFacts.

(** ** Further properties of the control unit *)

Lemma multiple_within_found n : forall t d k,
  1 <= k <= Z.of_nat n -> (t + k) mod d = 0 -> multiple_within t d n = true.
Proof.
  induction n as [|n IH]; intros t d k Hk Hm; [lia|].
  simpl. destruct (Z.eq_dec k 1) as [->|Hne].
  - rewrite Hm. reflexivity.
  - rewrite (IH (t + 1) d (k - 1)); [apply orb_true_r | lia |].
    by replace (t + 1 + (k - 1)) with (t + k) by lia.
Qed.

(** Any [|d|] consecutive integers contain a multiple of [d]. *)
Lemma multiple_within_abs t d :
  d <> 0 -> multiple_within t d (Z.abs_nat d) = true.
Proof.
  intros Hd.
  pose proof (Z.mod_pos_bound t (Z.abs d) ltac:(lia)) as Hb.
  apply (multiple_within_found _ t d (Z.abs d - t mod Z.abs d)); [lia|].
  apply Z.mod_divide; [exact Hd|].
  exists (Z.sgn d * (t / Z.abs d + 1)).
  pose proof (Z.div_mod t (Z.abs d) ltac:(lia)) as Hdm.
  pose proof (Z.abs_sgn d) as Hs.
  replace (Z.sgn d * (t / Z.abs d + 1) * d)
    with ((t / Z.abs d + 1) * (Z.sgn d * d)) by ring.
  rewrite <- Z.abs_sgn. lia.
Qed.

Section ControlFacts.

Context {Ports : Type}.
Variable add_input : Z -> Ports -> Ports.
Variable output_buffer : Ports -> list string.
Variable decode_memory_commands : Decoder -> M (ControlUnit Ports) Decoder.
Variable decode_arithmetic_commands : Decoder -> M (ControlUnit Ports) Decoder.
Variable decode_flow_commands : Decoder -> M (ControlUnit Ports) (Decoder * Signal).
Variable decode_subprogram_commands : Decoder -> M (ControlUnit Ports) Decoder.
Variable decode_interrupt_commands : Decoder -> M (ControlUnit Ports) Decoder.
Variable decode_stack_commands : Decoder -> M (ControlUnit Ports) Decoder.
Variable decode_io_commands : Decoder -> M (ControlUnit Ports) Decoder.

Implicit Types (cu : ControlUnit Ports).

#[local] Arguments py_getitem {A} l i : simpl never.


(** X16: whether it returns or raises, a tick advances [_tick] by exactly 1
    and hands the new tick number to the ports; it leaves the instruction
    pointer, the program, the counters of [execute], [ei], the delay, the
    registers, the flags and data memory alone, and it never clears a
    pending interrupt request. *)
Theorem tick_frame cu :
  let cu' := state_of (tick add_input cu) in
  _tick cu' = _tick cu + 1
  /\ ports (data_path cu') = add_input (_tick cu + 1) (ports (data_path cu))
  /\ ip cu' = ip cu /\ instructions cu' = instructions cu
  /\ int_vector cu' = int_vector cu /\ instr_counter cu' = instr_counter cu
  /\ ei cu' = ei cu /\ instr cu' = instr cu
  /\ timer_delay (timer cu') = timer_delay (timer cu)
  /\ data_memory (data_path cu') = data_memory (data_path cu)
  /\ acc (data_path cu') = acc (data_path cu)
  /\ buf_reg (data_path cu') = buf_reg (data_path cu)
  /\ stack_pointer (data_path cu') = stack_pointer (data_path cu)
  /\ address_reg (data_path cu') = address_reg (data_path cu)
  /\ flags (data_path cu') = flags (data_path cu)
  /\ (int_rq cu = true -> int_rq cu' = true).
Proof.
  intros cu'. unfold cu'. rewrite tick_cases.
  destruct (ei cu) eqn:He, (timer_delay (timer cu) =? 0),
    ((time (timer cu) + 1) mod timer_delay (timer cu) =? 0);
    simpl; rewrite ?He; repeat split; auto.
Qed.

(** X17: with interrupts enabled and any non-zero delay, negative ones
    included, a tick returns, and a request is pending afterwards exactly
    when one was pending before or the delay divides the advanced counter. *)
Theorem tick_requests_by_divisibility cu :
  ei cu = true ->
  timer_delay (timer cu) <> 0 ->
  exists cu',
    tick add_input cu = Returned tt cu'
    /\ time (timer cu') = time (timer cu) + 1
    /\ (int_rq cu' = true
        <-> int_rq cu = true \/ (timer_delay (timer cu) | time (timer cu) + 1)).
Proof.
  intros He Hd. rewrite tick_cases, He.
  destruct (Z.eqb_spec (timer_delay (timer cu)) 0) as [|_]; [contradiction|].
  pose proof (Z.mod_divide (time (timer cu) + 1) _ Hd) as Hdiv.
  destruct (Z.eqb_spec ((time (timer cu) + 1) mod timer_delay (timer cu)) 0) as [Hm|Hm];
    eexists; (split; [reflexivity|]); (split; [reflexivity|]); simpl.
  - split; [intros _; right; by apply Hdiv | reflexivity].
  - split; [auto|]. intros [H|H]; [exact H|]. apply Hdiv in H. contradiction.
Qed.

(** X18: with interrupts disabled any number of ticks in a row returns; the
    tick counter has advanced by that number, while the timer has not moved
    and the request flag is as it was. *)
Theorem ticks_disabled n : forall cu,
  ei cu = false ->
  exists cu',
    ticks add_input n cu = Returned tt cu'
    /\ _tick cu' = _tick cu + Z.of_nat n
    /\ timer cu' = timer cu
    /\ int_rq cu' = int_rq cu
    /\ ei cu' = false.
Proof.
  induction n as [|n IH]; intros cu He.
  - exists cu. simpl. repeat split; auto. lia.
  - simpl. unfold bind. rewrite tick_cases, He.
    destruct (IH (tick_cleared add_input cu) He) as (cu' & Hr & Ht & Htm & Hrq & Hei).
    exists cu'. split; [exact Hr|]. simpl in *. repeat split; auto. lia.
Qed.

(** With interrupts enabled and a non-zero delay, [n] ticks return, advance
    both counters by [n], and raise a request if one of the counter values
    passed is a multiple of the delay. *)
Lemma ticks_enabled n : forall cu,
  ei cu = true ->
  timer_delay (timer cu) <> 0 ->
  exists cu',
    ticks add_input n cu = Returned tt cu'
    /\ _tick cu' = _tick cu + Z.of_nat n
    /\ time (timer cu') = time (timer cu) + Z.of_nat n
    /\ int_rq cu'
       = int_rq cu || multiple_within (time (timer cu)) (timer_delay (timer cu)) n.
Proof.
  induction n as [|n IH]; intros cu He Hd.
  - exists cu. simpl. rewrite orb_false_r. repeat split; auto; lia.
  - simpl. unfold bind. rewrite tick_cases, He.
    destruct (Z.eqb_spec (timer_delay (timer cu)) 0) as [|_]; [contradiction|].
    destruct ((time (timer cu) + 1) mod timer_delay (timer cu) =? 0).
    + destruct (IH (set_int_rq true (tick_timed add_input cu)) He Hd)
        as (cu' & Hr & Ht & Htm & Hrq).
      exists cu'. split; [exact Hr|]. simpl in *.
      repeat split; [lia | lia |]. rewrite Hrq. by rewrite orb_true_r.
    + destruct (IH (tick_timed add_input cu) He Hd) as (cu' & Hr & Ht & Htm & Hrq).
      exists cu'. split; [exact Hr|]. simpl in *.
      repeat split; [lia | lia |]. exact Hrq.
Qed.

(** X19: with interrupts enabled and a non-zero delay [d], a request is
    pending after at most [|d|] ticks, wherever the counter started. *)
Theorem request_within_delay_ticks cu :
  ei cu = true ->
  timer_delay (timer cu) <> 0 ->
  exists cu',
    ticks add_input (Z.abs_nat (timer_delay (timer cu))) cu = Returned tt cu'
    /\ int_rq cu' = true.
Proof.
  intros He Hd.
  destruct (ticks_enabled (Z.abs_nat (timer_delay (timer cu))) cu He Hd)
    as (cu' & Hr & _ & _ & Hrq).
  exists cu'. split; [exact Hr|].
  rewrite Hrq, multiple_within_abs by exact Hd. apply orb_true_r.
Qed.

(** X20: on a timer that still holds its initial -2, with interrupts enabled,
    no request pending and a delay of absolute value at least 2, the first
    tick raises no request and the second always raises one, whatever the
    delay. *)
Theorem timer_warm_up cu :
  ei cu = true ->
  int_rq cu = false ->
  time (timer cu) = -2 ->
  2 <= Z.abs (timer_delay (timer cu)) ->
  exists cu1 cu2,
    tick add_input cu = Returned tt cu1 /\ int_rq cu1 = false
    /\ tick add_input cu1 = Returned tt cu2 /\ int_rq cu2 = true.
Proof.
  intros He Hrq Ht Hd.
  assert (timer_delay (timer cu) <> 0) as Hnz by lia.
  assert ((-1) mod timer_delay (timer cu) <> 0) as Hm1.
  { intros Hm. apply Z.mod_divide in Hm; [|exact Hnz].
    apply Z.divide_opp_r in Hm. simpl in Hm.
    apply Z.divide_1_r in Hm. lia. }
  exists (tick_timed add_input cu),
         (set_int_rq true (tick_timed add_input (tick_timed add_input cu))).
  rewrite !tick_cases. simpl. rewrite He, Ht. simpl.
  destruct (Z.eqb_spec (timer_delay (timer cu)) 0) as [|_]; [contradiction|].
  change (-2 + 1) with (-1).
  destruct (Z.eqb_spec ((-1) mod timer_delay (timer cu)) 0) as [|_]; [contradiction|].
  repeat split; auto.
Qed.


(** *** The fetch loop *)

(** X22: when the instruction pointer holds [None], or an integer outside
    [-len, len) for a program of [len] instructions (any integer, for an
    empty program), [execute] raises at the fetch, TypeError or IndexError,
    without running anything. *)
Theorem execute_fetch_fails fuel cu :
  (ip cu = PNone ->
   execute output_buffer decode_memory_commands decode_arithmetic_commands
      decode_flow_commands decode_subprogram_commands decode_interrupt_commands
      decode_stack_commands decode_io_commands fuel cu
   = Some (Raised TypeError cu))
  /\ (forall p, ip cu = PInt p ->
        p < - Z.of_nat (length (instructions cu))
        \/ Z.of_nat (length (instructions cu)) <= p ->
        execute output_buffer decode_memory_commands decode_arithmetic_commands
      decode_flow_commands decode_subprogram_commands decode_interrupt_commands
      decode_stack_commands decode_io_commands fuel cu
        = Some (Raised IndexError cu)).
Proof.
  split.
  - intros Hp. destruct fuel; simpl; unfold py_getitem; by rewrite Hp.
  - intros p Hp Hout.
    assert (py_norm_index (length (instructions cu)) p = None) as Hn.
    { destruct Hout; [by apply py_norm_index_below | by apply py_norm_index_above]. }
    destruct fuel; simpl; unfold py_getitem; by rewrite Hp, Hn.
Qed.

(** X23: [execute] returns only at a HALT: whenever it returns, the
    instruction at the final instruction pointer is a HALT and is the one
    recorded in [instr], and the result is the joined output buffer, the
    instruction counter and the tick counter of the final state. *)
Theorem execute_returns_at_halt fuel : forall cu r cu',
  execute output_buffer decode_memory_commands decode_arithmetic_commands
      decode_flow_commands decode_subprogram_commands decode_interrupt_commands
      decode_stack_commands decode_io_commands fuel cu
  = Some (Returned r cu') ->
  exists i,
    py_getitem (instructions cu') (ip cu') = inr i
    /\ opcode i = HALT
    /\ instr cu' = Some i
    /\ r = (join_output (output_buffer (ports (data_path cu'))),
            instr_counter cu', _tick cu').
Proof.
  assert (forall cu r cu' i,
             py_getitem (instructions cu) (ip cu) = inr i ->
             opcode i = HALT ->
             execute_finish output_buffer cu = Returned r cu' ->
             exists i,
               py_getitem (instructions cu') (ip cu') = inr i
               /\ opcode i = HALT /\ instr cu' = Some i
               /\ r = (join_output (output_buffer (ports (data_path cu'))),
                       instr_counter cu', _tick cu')) as Hfin.
  { intros cu r cu' i Hi Hh. unfold execute_finish, bind, gets, modify, eval, ret.
    rewrite Hi. intros [= <- <-]. exists i. by repeat split. }
  induction fuel as [|fuel IH]; intros cu r cu'; simpl;
    destruct (py_getitem (instructions cu) (ip cu)) as [e|i] eqn:Hi;
    try discriminate; case_decide as Hh.
  - discriminate.
  - intros [= Hf]. apply (Hfin cu r cu' i Hi); [|exact Hf].
    by destruct (decide (opcode i = HALT)).
  - destruct (execute_body _ _ _ _ _ _ _ cu) as [[] cu1|e cu1]; [apply IH|discriminate].
  - intros [= Hf]. apply (Hfin cu r cu' i Hi); [|exact Hf].
    by destruct (decide (opcode i = HALT)).
Qed.


End ControlFacts.

(** ** Concrete runs of the further properties *)

Ltac distinct_members :=
  let H := fresh "H" in
  intros H;
  repeat (apply elem_of_cons in H as [H|H]; [discriminate H|]);
  by apply elem_of_nil in H.

Lemma alu_working_raise_causes_witness :
  ZeroDivisionError = ZeroDivisionError
  /\ (REM = DIV \/ REM = REM)
  /\ exists b1 b2 rest,
      [ACC; BUF] = b1 :: b2 :: rest /\ get_bus_value b2 sample_dp = PInt 0.
Proof.
  assert (forall b, exists x, get_bus_value b sample_dp = PInt x) as Hint
    by (intros []; eexists; reflexivity).
  destruct (alu_working_raise_causes REM [ACC; BUF] ZeroDivisionError sample_dp
              (latched [ACC; BUF] (-3) sample_dp) Hint eq_refl)
    as [(Hnil & _) | Hcause]; [discriminate Hnil | exact Hcause].
Defined.

Lemma alu_working_keeps_flags_witness :
  flags (state_of (alu_working DIV [BUF; MEM] sample_dp_mem)) = flags sample_dp_mem.
Proof.
  apply alu_working_keeps_flags; [distinct_members | discriminate].
Defined.

Lemma alu_working_unary_result_witness :
  alu_working MOVH [BUF; ACC] sample_dp_mem
  = Returned tt (set_alu_out (PInt 117440512) (latched [BUF; ACC] 7 sample_dp_mem)).
Proof.
  assert (MOVH ∈ [INC; DEC; MOVH]) as Hop by (do 2 right; left).
  exact (proj1 (alu_working_unary_result MOVH BUF [ACC] 7 sample_dp_mem Hop eq_refl)).
Defined.

Lemma alu_working_single_operand_witness :
  alu_working DIV [ACC] sample_dp = Returned tt (latched [ACC] (-3) sample_dp).
Proof.
  apply alu_working_single_operand; [distinct_members | reflexivity].
Defined.

Lemma alu_working_foreign_opcode_witness :
  (exists dp1, alu_working LOAD [ACC; BUF] sample_dp = Returned tt dp1
               /\ alu_out dp1 = PNone)
  /\ exists dp',
      alu_working INC [ACC; BUF]
        (state_of ((do! alu_working LOAD [ACC; BUF] in signal_latch_acc READ (PInt 0))
                     sample_dp))
      = Raised TypeError dp'
      /\ alu_out dp' = PNone.
Proof.
  assert (LOAD ∉ arithmetic_operations) as Hop by distinct_members.
  assert (READ <> DIRECT_ACC_LOAD) as Hsel by discriminate.
  destruct (alu_working_foreign_opcode LOAD ACC BUF [] (-3) READ (PInt 0)
              sample_dp Hop eq_refl Hsel) as (Hfall & _ & Hnext).
  split; [exact Hfall | exact (Hnext INC [BUF])].
Defined.

Lemma compare_flags_trichotomy_witness :
  flag_n (flags (state_of (alu_working CMP [ACC; BUF] sample_dp_mem))) = true.
Proof.
  destruct (compare_flags_trichotomy ACC BUF [] (-3) 7 sample_dp_mem eq_refl eq_refl)
    as (_ & Hn & _).
  apply Hn. lia.
Defined.

Lemma alu_result_latched_into_acc_witness :
  exists dp',
    (do! alu_working SUB [ACC; BUF] in signal_latch_acc READ PNone) sample_dp_mem
    = Returned tt dp'
    /\ get_bus_value ACC dp' = PInt (-10).
Proof.
  assert (SUB ∈ [ADD; SUB; MUL; DIV; REM]) as Hop by (right; left).
  assert (SUB = DIV \/ SUB = REM -> 7 <> 0) as Hnz by (intros _; discriminate).
  destruct (alu_result_latched_into_acc SUB ACC BUF [] (-3) 7 READ PNone
              sample_dp_mem Hop eq_refl eq_refl Hnz) as (dp' & Hrun & Hacc & _).
  exists dp'. split; [exact Hrun | exact Hacc].
Defined.


Lemma memory_write_then_read_same_cell_witness :
  exists dp',
    (do! memory_manager WRITE in
     do! signal_latch_address DIRECT_ADDRESS_LOAD (PInt 6) in
     memory_manager READ) (sample_dp_at (-2)) = Returned tt dp'
    /\ memory_out dp' = PInt 0.
Proof.
  destruct (memory_write_then_read_same_cell (-2) 6 6%nat (sample_dp_at (-2))
              eq_refl eq_refl eq_refl) as (dp' & Hrun & Hout & _).
  exists dp'. split; [exact Hrun | exact Hout].
Defined.

Lemma memory_write_then_read_other_cell_witness :
  exists dp',
    (do! memory_manager WRITE in
     do! signal_latch_address DIRECT_ADDRESS_LOAD (PInt 6) in
     memory_manager READ) (sample_dp_at 0) = Returned tt dp'
    /\ memory_out dp' = PInt 42.
Proof.
  apply (memory_write_then_read_other_cell 0 6 0%nat 6%nat (PInt 42) (sample_dp_at 0));
    [reflexivity | reflexivity | reflexivity | discriminate | reflexivity].
Defined.

Lemma memory_manager_raise_is_atomic_witness :
  IndexError = IndexError /\ (8 < - 8 \/ 8 <= 8).
Proof.
  destruct (memory_manager_raise_is_atomic READ IndexError (sample_dp_at 8)
              (sample_dp_at 8) eq_refl) as (_ & _ & Hcause).
  exact Hcause.
Defined.

Lemma memory_manager_none_or_below_witness :
  memory_manager WRITE (sample_dp_at (-9)) = Raised IndexError (sample_dp_at (-9)).
Proof.
  apply (proj2 (memory_manager_none_or_below WRITE (sample_dp_at (-9))
                  (or_intror eq_refl)) (-9)); [reflexivity | simpl; lia].
Defined.

Lemma DataPath_init_memory_witness :
  memory_manager READ
    (set_address_reg (PInt 0) (DataPath_init 0 (([], []) : sample_ports)))
  = Raised IndexError
      (set_address_reg (PInt 0) (DataPath_init 0 (([], []) : sample_ports))).
Proof.
  apply (proj2 (proj2 (DataPath_init_memory 0 (([], []) : sample_ports))));
    [lia | by left].
Defined.

Lemma tick_frame_witness :
  int_rq (state_of (tick sample_add_input (set_int_rq true sample_cu_timer))) = true.
Proof.
  destruct (tick_frame sample_add_input (set_int_rq true sample_cu_timer))
    as (_&_&_&_&_&_&_&_&_&_&_&_&_&_&_&Hkeep).
  exact (Hkeep eq_refl).
Defined.

Lemma tick_requests_by_divisibility_witness :
  exists cu',
    tick sample_add_input sample_cu_negdelay = Returned tt cu' /\ int_rq cu' = true.
Proof.
  assert (timer_delay (timer sample_cu_negdelay) <> 0) as Hd by discriminate.
  destruct (tick_requests_by_divisibility sample_add_input sample_cu_negdelay
              eq_refl Hd) as (cu' & Hrun & _ & Hrq).
  exists cu'. split; [exact Hrun|].
  apply Hrq. right. exists (-2). reflexivity.
Defined.

Lemma ticks_disabled_witness :
  exists cu', ticks sample_add_input 3 sample_cu = Returned tt cu' /\ _tick cu' = 3.
Proof.
  destruct (ticks_disabled sample_add_input 3 sample_cu eq_refl)
    as (cu' & Hrun & Ht & _).
  exists cu'. split; [exact Hrun | exact Ht].
Defined.

Lemma request_within_delay_ticks_witness :
  exists cu',
    ticks sample_add_input 5 sample_cu_fresh5 = Returned tt cu' /\ int_rq cu' = true.
Proof.
  assert (timer_delay (timer sample_cu_fresh5) <> 0) as Hd by discriminate.
  exact (request_within_delay_ticks sample_add_input sample_cu_fresh5 eq_refl Hd).
Defined.

Lemma timer_warm_up_witness :
  exists cu1 cu2,
    tick sample_add_input sample_cu_fresh5 = Returned tt cu1 /\ int_rq cu1 = false
    /\ tick sample_add_input cu1 = Returned tt cu2 /\ int_rq cu2 = true.
Proof.
  apply timer_warm_up; [reflexivity | reflexivity | reflexivity | simpl; lia].
Defined.


Lemma execute_fetch_fails_witness :
  sample_execute 4%nat (set_ip (PInt 3) sample_cu)
  = Some (Raised IndexError (set_ip (PInt 3) sample_cu)).
Proof.
  apply (proj2 (execute_fetch_fails sample_output_buffer idle_decoder idle_decoder
                  idle_flow idle_decoder idle_decoder idle_decoder idle_decoder
                  4%nat (set_ip (PInt 3) sample_cu)) 3);
    [reflexivity | right; simpl; lia].
Defined.

Lemma execute_returns_at_halt_witness :
  exists i,
    py_getitem (instructions sample_cu_end) (ip sample_cu_end) = inr i
    /\ opcode i = HALT
    /\ instr sample_cu_end = Some i.
Proof.
  destruct (execute_returns_at_halt sample_output_buffer idle_decoder idle_decoder
              idle_flow idle_decoder idle_decoder idle_decoder idle_decoder
              2%nat sample_cu ("ok"%string, 2, 0) sample_cu_end eq_refl)
    as (i & Hi & Hh & Hin & _).
  exists i. by repeat split.
Defined.

